(** * Session lifecycle and authentication of the exam-platform dashboard

    A shallow embedding of [auth.py] (class [AuthenticationSystem]) and of
    the part of [connection.py] it calls ([execute_query]), followed by the
    properties of the session contract.

    Conventions.
    - Python [str] values are Rocq strings holding the UTF-8 bytes of the
      text; emptiness and equality are the same on both sides.
    - [st.session_state] is a dictionary with string keys: a [gmap string value].
    - [datetime.now()] is an input: every function that reads the clock takes
      the reading as an argument, in microseconds (the resolution of
      [datetime]) counted from 0001-01-01T00:00:00.
    - A Python exception that leaves a function is a [Raise] result. *)

From Stdlib Require Import Ascii.
From stdpp Require Import gmap strings list fin_maps pretty sorting.

Local Open Scope Z_scope.

(** ** Python values *)

(** Values of the database columns and of the fields of a user dictionary. *)
Inductive atom :=
  | ANone
  | ABool (b : bool)
  | AInt (z : Z)
  | AStr (s : string).

(** A [datetime]: the microseconds of its own calendar fields since
    0001-01-01T00:00:00 and, for an aware value, its UTC offset in
    microseconds.  [datetime.now()] builds naive values. *)
Record datetime := Datetime {
  dt_micros : Z;
  dt_utcoffset : option Z
}.

(** What a slot of [st.session_state] holds. *)
Inductive value :=
  | Atom (a : atom)
  | Moment (d : datetime)
  | Dict (d : gmap string atom).

Inductive exn :=
  | KeyError (key : string)
  | TypeError
  | AttributeError
  | ValueError
  | OverflowError
  | DatabaseError.

Inductive result (A : Type) :=
  | Ok (a : A)
  | Raise (e : exn).
Arguments Ok {A} a.
Arguments Raise {A} e.

Global Instance atom_eq_dec : EqDecision atom.
Proof. solve_decision. Defined.

Global Instance datetime_eq_dec : EqDecision datetime.
Proof. solve_decision. Defined.

Global Instance value_eq_dec : EqDecision value.
Proof. solve_decision. Defined.

Global Instance exn_eq_dec : EqDecision exn.
Proof. solve_decision. Defined.

Global Instance result_ret : MRet result := λ A a, Ok a.

Global Instance result_bind : MBind result := λ A B k r,
  match r with
  | Ok a => k a
  | Raise e => Raise e
  end.

(** Truth value of a Python object, as [if x:] and [and] test it. *)
Definition atom_truthy (a : atom) : bool :=
  match a with
  | ANone => false
  | ABool b => b
  | AInt z => negb (z =? 0)
  | AStr s => negb (String.eqb s "")
  end.

Definition truthy (v : value) : bool :=
  match v with
  | Atom a => atom_truthy a
  | Moment _ => true
  | Dict d => negb (bool_decide (d = ∅))
  end.

(** [format(x, '')] as an f-string field applies it: a [str] is inserted as it
    is, the other atoms through [str()]. *)
Definition format_atom (a : atom) : string :=
  match a with
  | ANone => "None"
  | ABool true => "True"
  | ABool false => "False"
  | AInt z => pretty z
  | AStr s => s
  end.

(** [d[key]] on a dictionary. *)
Definition getitem {A} (d : gmap string A) (key : string) : result A :=
  match d !! key with
  | Some v => Ok v
  | None => Raise (KeyError key)
  end.

(** ** datetime and timedelta *)

Definition naive (t : Z) : datetime := Datetime t None.

(** A [timedelta] is kept as its total number of microseconds.  The
    constructor normalises to days, seconds and microseconds and refuses more
    than 999999999 days in either direction. *)
Definition max_delta_days : Z := 999999999.

Definition timedelta_minutes (minutes : Z) : result Z :=
  let days := (minutes * 60) `div` 86400 in
  if bool_decide (- max_delta_days ≤ days ≤ max_delta_days)
  then Ok (minutes * 60 * 1000000)
  else Raise OverflowError.

(** [a - b] on two [datetime] values: mixing a naive and an aware operand is a
    [TypeError]; two aware operands are compared in UTC. *)
Definition datetime_sub (a b : datetime) : result Z :=
  match dt_utcoffset a, dt_utcoffset b with
  | None, None => Ok (dt_micros a - dt_micros b)
  | Some oa, Some ob => Ok ((dt_micros a - oa) - (dt_micros b - ob))
  | _, _ => Raise TypeError
  end.

(** [datetime.now() - x] for whatever the session slot holds. *)
Definition now_minus (now : Z) (x : value) : result Z :=
  match x with
  | Moment d => datetime_sub (naive now) d
  | _ => Raise TypeError
  end.

(** ** The ISO format reader

    [datetime.fromisoformat] belongs to the Python library.  The session
    functions below take it as a parameter ([None] stands for the
    [ValueError] it raises); [parse_isoformat] is the reader for the strings
    that [datetime.isoformat()] writes, used to run the functions on concrete
    sessions. *)

Fixpoint read_digits (n : nat) (acc : Z) (s : string) : option (Z * string) :=
  match n with
  | O => Some (acc, s)
  | S n' =>
      match s with
      | String c s' =>
          d ← Ascii.is_nat c; read_digits n' (acc * 10 + Z.of_nat d) s'
      | EmptyString => None
      end
  end.

Definition read_char (c : ascii) (s : string) : option string :=
  match s with
  | String c' s' => if decide (c = c') then Some s' else None
  | EmptyString => None
  end.

Definition is_leap (year : Z) : bool :=
  (year `mod` 4 =? 0) && (negb (year `mod` 100 =? 0) || (year `mod` 400 =? 0)).

Definition days_in_month (year month : Z) : Z :=
  match month with
  | 1 | 3 | 5 | 7 | 8 | 10 | 12 => 31
  | 4 | 6 | 9 | 11 => 30
  | 2 => if is_leap year then 29 else 28
  | _ => 0
  end.

Definition days_before_year (year : Z) : Z :=
  let y := year - 1 in y * 365 + y `div` 4 - y `div` 100 + y `div` 400.

Definition days_before_month (year month : Z) : Z :=
  foldr (λ m acc, days_in_month year m + acc) 0
        (seqZ 1 (month - 1)).

Definition ymd2ord (year month day : Z) : Z :=
  days_before_year year + days_before_month year month + day.

Definition micros_of_fields (year month day hour minute second micro : Z) : Z :=
  (((ymd2ord year month day - 1) * 24 + hour) * 60 + minute) * 60000000
  + second * 1000000 + micro.

Definition read_date (s : string) : option (Z * Z * Z * string) :=
  '(year, s) ← read_digits 4 0 s;
  s ← read_char "-" s;
  '(month, s) ← read_digits 2 0 s;
  s ← read_char "-" s;
  '(day, s) ← read_digits 2 0 s;
  if bool_decide (1 ≤ year ∧ 1 ≤ month ≤ 12 ∧ 1 ≤ day ≤ days_in_month year month)
  then Some (year, month, day, s)
  else None.

Definition read_fraction (s : string) : option (Z * string) :=
  match s with
  | String "." s' =>
      match read_digits 6 0 s' with
      | Some r => Some r
      | None => '(ms, s'') ← read_digits 3 0 s'; Some (ms * 1000, s'')
      end
  | _ => Some (0, s)
  end.

Definition read_offset (s : string) : option (option Z) :=
  match s with
  | EmptyString => Some None
  | String sign s' =>
      sgn ← (if decide (sign = "+"%char) then Some 1
             else if decide (sign = "-"%char) then Some (-1) else None);
      '(hh, s') ← read_digits 2 0 s';
      s' ← read_char ":" s';
      '(mm, s') ← read_digits 2 0 s';
      if bool_decide (s' = "" ∧ hh < 24 ∧ mm < 60)
      then Some (Some (sgn * (hh * 60 + mm) * 60000000))
      else None
  end.

Definition parse_isoformat (s : string) : option datetime :=
  '(year, month, day, s) ← read_date s;
  match s with
  | EmptyString => Some (naive (micros_of_fields year month day 0 0 0 0))
  | String _ s =>
      '(hour, s) ← read_digits 2 0 s;
      s ← read_char ":" s;
      '(minute, s) ← read_digits 2 0 s;
      s ← read_char ":" s;
      '(second, s) ← read_digits 2 0 s;
      '(micro, s) ← read_fraction s;
      offset ← read_offset s;
      if bool_decide (hour < 24 ∧ minute < 60 ∧ second < 60)
      then Some (Datetime (micros_of_fields year month day hour minute second micro)
                          offset)
      else None
  end.

(** ** The session store

    A function of [AuthenticationSystem] that reads or writes
    [st.session_state] is a computation over the store: it returns the store
    it leaves behind together with its value or the exception it raised.
    An exception does not undo the writes made before it. *)

Definition session (A : Type) : Type :=
  gmap string value → gmap string value * result A.

Global Instance session_ret : MRet session := λ A a st, (st, Ok a).

Global Instance session_bind : MBind session := λ A B k m st,
  match m st with
  | (st', Ok a) => k a st'
  | (st', Raise e) => (st', Raise e)
  end.

(** Lifting of a pure step that may raise. *)
Definition session_lift {A} (r : result A) : session A := λ st, (st, r).

(** [key in st.session_state] *)
Definition session_contains (key : string) : session bool :=
  λ st, (st, Ok (bool_decide (is_Some (st !! key)))).

(** [st.session_state[key]] *)
Definition session_getitem (key : string) : session value :=
  λ st, (st, getitem st key).

(** [st.session_state.get(key, default)] *)
Definition session_get (key : string) (dflt : value) : session value :=
  λ st, (st, Ok (default dflt (st !! key))).

(** [st.session_state[key] = v] *)
Definition session_setitem (key : string) (v : value) : session unit :=
  λ st, (<[key := v]> st, Ok tt).

(** [del st.session_state[key]] *)
Definition session_delitem (key : string) : session unit :=
  λ st, match st !! key with
        | Some _ => (delete key st, Ok tt)
        | None => (st, Raise (KeyError key))
        end.

(** [list(st.session_state.keys())] *)
Definition session_keys : session (list string) :=
  λ st, (st, Ok (map_to_list st).*1).

(** [st.session_state.update({...})]: the items are stored one after the
    other, the slots that are not named keep what they hold. *)
Fixpoint session_update (items : list (string * value)) : session unit :=
  match items with
  | [] => mret tt
  | (k, v) :: rest => session_setitem k v ;; session_update rest
  end.

(** [for x in xs: body(x)] *)
Fixpoint for_each {A} (xs : list A) (body : A → session unit) : session unit :=
  match xs with
  | [] => mret tt
  | x :: rest => body x ;; for_each rest body
  end.

(** [x.get(key, default)]: only a dictionary has the method. *)
Definition get_method (x : value) (key : string) (dflt : atom) : result atom :=
  match x with
  | Dict d => Ok (default dflt (d !! key))
  | _ => Raise AttributeError
  end.

(** ** connection.py

    The table [users] lives in PostgreSQL.  A row carries the columns that the
    query of [authenticate] names; [linked_id] and [email] may be NULL. *)

Record users_row := UsersRow {
  u_id : Z;
  u_username : string;
  u_role : string;
  u_linked_id : option Z;
  u_email : option string;
  u_is_active : bool
}.

(** How the server behaves during one call of [execute_query]:
    - [Unreachable]: [psycopg2.connect] raises and [get_connection] returns
      [None];
    - [Failing r]: the connection opens and the cursor raises; [r] tells
      whether [conn.rollback()] in the handler raises in turn;
    - [Answering]: the statement runs on the table. *)
Inductive server :=
  | Unreachable
  | Failing (rollback_raises : bool)
  | Answering.

Record database := Database {
  db_server : server;
  db_users : list users_row
}.

Global Instance users_row_eq_dec : EqDecision users_row.
Proof. solve_decision. Defined.

Global Instance server_eq_dec : EqDecision server.
Proof. solve_decision. Defined.

Definition get_connection (db : database) : option database :=
  match db_server db with
  | Unreachable => None
  | _ => Some db
  end.

(** [execute_query(query, params)] with [fetch=True]; the statement is given
    by what it computes from the table. *)
Definition execute_query {R} (db : database)
    (query : list users_row → list R) : result (list R) :=
  match get_connection db with
  | None => Ok []
  | Some conn =>
      match db_server conn with
      | Failing rollback_raises =>
          if rollback_raises then Raise DatabaseError else Ok []
      | _ => Ok (query (db_users conn))
      end
  end.

(** ** auth.py *)

Section AuthenticationSystem.

(** [datetime.fromisoformat]; [None] when it raises [ValueError]. *)
Variable fromisoformat : string → option datetime.

(** [hashlib.sha256(bytes).hexdigest()] *)
Variable sha256_hexdigest : string → string.

Definition hash_password (password : string) : string :=
  sha256_hexdigest password.

(** The [CASE u.role ... END as display_name] of the statement. *)
Definition display_name_of (u : users_row) : string :=
  if decide (u_role u = "etudiant") then "Étudiant Test"
  else if decide (u_role u = "professeur") then "Professeur Test"
  else u_username u.

(** The row that [RealDictCursor] returns for [u]. *)
Definition select_columns (u : users_row) : gmap string atom :=
  {[ "id" := AInt (u_id u);
     "username" := AStr (u_username u);
     "role" := AStr (u_role u);
     "linked_id" := from_option AInt ANone (u_linked_id u);
     "email" := from_option AStr ANone (u_email u);
     "display_name" := AStr (display_name_of u) ]}.

(** [SELECT ... FROM users u WHERE u.username = %s AND u.is_active = TRUE] *)
Definition active_user_query (username : string)
    (table : list users_row) : list (gmap string atom) :=
  select_columns <$>
    filter (λ u, u_username u = username ∧ u_is_active u = true) table.

(** The value is the returned dictionary, or [None] for Python's [None];
    the bare [except] turns every exception into [None]. *)
Definition authenticate (db : database) (username password : string)
    : option (gmap string atom) :=
  match
    result ← execute_query db (active_user_query username);
    match result with
    | user :: _ =>
        if negb (String.eqb password "") then
          name ← getitem user "username";
          role ← getitem user "role";
          linked_id ← getitem user "linked_id";
          display_name ← getitem user "display_name";
          mret (Some ({[ "username" := name;
                         "role" := role;
                         "linked_id" := linked_id;
                         "display_name" := display_name ]} : gmap string atom))
        else mret None
    | [] => mret None
    end
  with
  | Ok outcome => outcome
  | Raise _ => None
  end.

(** The two readings of [datetime.now()] are the arguments [t_login] and
    [t_activity], in the order the dictionary literal evaluates them. *)
Definition initialize_session (user_data : gmap string atom)
    (t_login t_activity : Z) : session unit :=
  session_update
    [ ("authenticated", Atom (ABool true));
      ("user", Dict user_data);
      ("login_time", Moment (naive t_login));
      ("last_activity", Moment (naive t_activity)) ];;
  role ← session_lift (getitem user_data "role");
  linked_id ← session_lift (getitem user_data "linked_id");
  session_setitem (format_atom role +:+ "_id") (Atom linked_id);;
  username ← session_lift (getitem user_data "username");
  session_setitem (format_atom role +:+ "_name")
                  (Atom (default username (user_data !! "display_name"))).

(** The line written to the logger is not part of the store and is left
    out; the lookup of the user name that builds it can raise. *)
Definition logout : session unit :=
  user ← session_get "user" (Dict ∅);
  username ← session_lift (get_method user "username" (AStr "Inconnu"));
  keys ← session_keys;
  for_each keys session_delitem.

Definition check_session_timeout (timeout_minutes : Z) (now : Z) : session bool :=
  present ← session_contains "last_activity";
  if negb present then mret true
  else
    last_activity ← session_getitem "last_activity";
    last_activity ← session_lift
      (match last_activity with
       | Atom (AStr s) =>
           match fromisoformat s with
           | Some d => Ok (Moment d)
           | None => Raise ValueError
           end
       | other => Ok other
       end);
    timeout_delta ← session_lift (timedelta_minutes timeout_minutes);
    elapsed ← session_lift (now_minus now last_activity);
    mret (bool_decide (timeout_delta < elapsed)).

Definition update_activity (now : Z) : session unit :=
  present ← session_contains "authenticated";
  if negb present then mret tt
  else
    authenticated ← session_getitem "authenticated";
    if truthy authenticated
    then session_setitem "last_activity" (Moment (naive now))
    else mret tt.

(** ** The life of a session

    The four operations of the contract, each with the clock readings it
    takes.  An exception of an operation reaches the caller; the store stays
    as the operation left it and the next operation starts from there. *)

Inductive operation :=
  | EstablishSession (identity : gmap string atom) (t_login t_activity : Z)
  | Touch (now : Z)
  | IsExpired (timeout_minutes now : Z)
  | Terminate.

Definition perform (st : gmap string value) (op : operation)
    : gmap string value :=
  match op with
  | EstablishSession identity t_login t_activity =>
      (initialize_session identity t_login t_activity st).1
  | Touch now => (update_activity now st).1
  | IsExpired timeout_minutes now =>
      (check_session_timeout timeout_minutes now st).1
  | Terminate => (logout st).1
  end.

Definition run (ops : list operation) (st : gmap string value)
    : gmap string value :=
  foldl perform st ops.

Definition clock_readings (op : operation) : list Z :=
  match op with
  | EstablishSession _ t_login t_activity => [t_login; t_activity]
  | Touch now => [now]
  | IsExpired _ now => [now]
  | Terminate => []
  end.

(** The clock does not run backwards over the trace. *)
Definition clock_monotone (ops : list operation) : Prop :=
  StronglySorted Z.le (ops ≫= clock_readings).

End AuthenticationSystem.

(** ** Vocabulary of the properties *)

(** [s] ends with [suffix]. *)
Fixpoint ends_with (suffix s : string) : bool :=
  if String.eqb s suffix then true
  else match s with
       | String _ s' => ends_with suffix s'
       | EmptyString => false
       end.

(** The [authenticated] flag as [update_activity] reads it. *)
Definition is_authenticated (st : gmap string value) : bool :=
  match st !! "authenticated" with
  | Some v => truthy v
  | None => false
  end.

(** No session is established: the state before the first login (with or
    without the [authenticated = False] that [main] stores) and after a
    logout. *)
Definition anonymous (st : gmap string value) : Prop :=
  is_authenticated st = false ∧
  st !! "login_time" = None ∧ st !! "last_activity" = None.

(** [last_activity >= login_time], on a store that records both or none. *)
Definition activity_not_before_login (st : gmap string value) : Prop :=
  (st !! "login_time" = None ∧ st !! "last_activity" = None) ∨
  ∃ t_login t_activity,
    st !! "login_time" = Some (Moment (naive t_login)) ∧
    st !! "last_activity" = Some (Moment (naive t_activity)) ∧
    t_login ≤ t_activity.

(** The invariant carried along a trace: no session is established, or the
    two timestamps are in order and no later clock reading precedes the
    recorded activity. *)
Definition times_in_order (st : gmap string value) (later : list Z) : Prop :=
  anonymous st ∨
  ∃ t_login t_activity,
    st !! "login_time" = Some (Moment (naive t_login)) ∧
    st !! "last_activity" = Some (Moment (naive t_activity)) ∧
    t_login ≤ t_activity ∧
    Forall (Z.le t_activity) later.

(** The [user] slot holds what [initialize_session] stores there, when it
    holds anything. *)
Definition user_slot_typed (st : gmap string value) : Prop :=
  st !! "user" = None ∨ ∃ d, st !! "user" = Some (Dict d).

(** The comparison of [check_session_timeout], once the slot is known to hold
    the [datetime] [d]. *)
Definition elapsed_exceeds (timeout_minutes now : Z) (d : datetime)
    : result bool :=
  timeout_delta ← timedelta_minutes timeout_minutes;
  elapsed ← datetime_sub (naive now) d;
  mret (bool_decide (timeout_delta < elapsed)).

(** [timedelta(minutes=m)] is within the range of [timedelta]. *)
Definition timedelta_in_range (minutes : Z) : Prop :=
  - max_delta_days ≤ (minutes * 60) `div` 86400 ≤ max_delta_days.

(** No two active rows share a user name. *)
Definition usernames_unique (table : list users_row) : Prop :=
  NoDup (u_username <$> filter (λ u, u_is_active u = true) table).

(** The dictionary that [authenticate] returns for the row [u]. *)
Definition identity_of (u : users_row) : gmap string atom :=
  {[ "username" := AStr (u_username u);
     "role" := AStr (u_role u);
     "linked_id" := from_option AInt ANone (u_linked_id u);
     "display_name" := AStr (display_name_of u) ]}.

(** The table without its inactive rows. *)
Definition without_inactive (db : database) : database :=
  Database (db_server db) (filter (λ u, u_is_active u = true) (db_users db)).

(** The store after the [update] call of [initialize_session]. *)
Definition session_base (user_data : gmap string atom) (t_login t_activity : Z)
    (st : gmap string value) : gmap string value :=
  <["last_activity" := Moment (naive t_activity)]>
    (<["login_time" := Moment (naive t_login)]>
       (<["user" := Dict user_data]>
          (<["authenticated" := Atom (ABool true)]> st))).

(** The slots that [initialize_session] writes for an identity of role
    [role]. *)
Definition session_fields (role : string) : list string :=
  [ "authenticated"; "user"; "login_time"; "last_activity";
    role +:+ "_id"; role +:+ "_name" ].

(** ** Sample data *)

Definition alice : users_row :=
  UsersRow 1 "alice" "etudiant" (Some 42) (Some "alice@univ.dz") true.

Definition bob : users_row :=
  UsersRow 2 "bob" "professeur" (Some 7) None true.

Definition carol : users_row :=
  UsersRow 3 "carol" "chef_departement" None None false.

Definition campus : database := Database Answering [alice; bob; carol].

Definition bob_identity : gmap string atom :=
  {[ "username" := AStr "bob"; "role" := AStr "professeur";
     "linked_id" := AInt 7; "display_name" := AStr "Professeur Test" ]}.

(** What a student session leaves behind when nothing clears it. *)
Definition student_leftover : gmap string value :=
  {[ "etudiant_id" := Atom (AInt 42);
     "etudiant_name" := Atom (AStr "Étudiant Test") ]}.

Definition minute : Z := 60000000.

(** 2024-03-01T12:30:15.250000 *)
Definition t0 : Z := 63844893015250000.

Definition bob_session : gmap string value :=
  {[ "authenticated" := Atom (ABool true);
     "user" := Dict bob_identity;
     "login_time" := Moment (naive t0);
     "last_activity" := Moment (naive t0);
     "professeur_id" := Atom (AInt 7);
     "professeur_name" := Atom (AStr "Professeur Test") ]}.

(** Scenario 6 of the specification, then a logout and a late touch. *)
Definition working_day : list operation :=
  [ EstablishSession bob_identity t0 (t0 + 3);
    Touch (t0 + 10 * minute);
    IsExpired 60 (t0 + 65 * minute);
    Terminate;
    Touch (t0 + 70 * minute) ].

(** * The rest of the code

    The calls of [execute_query] one by one, [load_dataframe], the handler of
    the login form, the guard of [main] and what the dashboards read from the
    session. *)

(** ** connection.py, call by call *)

(** The calls that [execute_query] makes on psycopg2, in a run; [Execute]
    stands for [conn.cursor(...)] followed by [cursor.execute(...)]. *)
Inductive db_call :=
  | Connect
  | Execute
  | Fetchall
  | Commit
  | Rollback
  | Close.

Global Instance db_call_eq_dec : EqDecision db_call.
Proof. solve_decision. Defined.

(** What the server holds for a statement: the rows of its result set when
    it has one ([cursor.description] is set), and [cursor.rowcount]. *)
Record statement (R : Type) := Statement {
  stmt_rows : option (list R);
  stmt_rowcount : Z
}.
Arguments Statement {R} stmt_rows stmt_rowcount.
Arguments stmt_rows {R} s.
Arguments stmt_rowcount {R} s.

(** What [execute_query] returns: a list of rows or a row count. *)
Inductive fetched (R : Type) :=
  | Rows (rows : list R)
  | Rowcount (n : Z).
Arguments Rows {R} rows.
Arguments Rowcount {R} n.

(** [[] if fetch else 0] *)
Definition fallback {R} (fetch : bool) : fetched R :=
  if fetch then Rows [] else Rowcount 0.

(** The body of the [try]: the calls made and the value to return, [None]
    when a call raised. *)
Definition query_body {R} (raises : db_call → bool) (stmt : statement R)
    (fetch : bool) : list db_call * option (fetched R) :=
  if raises Execute then ([Execute], None)
  else
    match (if fetch then stmt_rows stmt else None) with
    | Some rows =>
        if raises Fetchall then ([Execute; Fetchall], None)
        else if raises Commit then ([Execute; Fetchall; Commit], None)
        else ([Execute; Fetchall; Commit], Some (Rows rows))
    | None =>
        if raises Commit then ([Execute; Commit], None)
        else ([Execute; Commit], Some (Rowcount (stmt_rowcount stmt)))
    end.

(** [execute_query(query, params, fetch)] with the calls it makes, in order.
    [raises c] tells whether the call [c] raises in this run.  A failed
    [connect] is caught inside [get_connection]; an exception of the body
    goes to the handler, which rolls back; the [finally] clause closes the
    connection, and an exception raised there replaces the pending result. *)
Definition execute_query_calls {R} (raises : db_call → bool)
    (stmt : statement R) (fetch : bool) : list db_call * result (fetched R) :=
  if raises Connect then ([Connect], Ok (fallback fetch))
  else
    let '(body_calls, value) := query_body raises stmt fetch in
    let '(handler_calls, outcome) :=
      match value with
      | Some v => ([], Ok v)
      | None =>
          ([Rollback],
           if raises Rollback then Raise DatabaseError else Ok (fallback fetch))
      end in
    (Connect :: body_calls ++ handler_calls ++ [Close],
     if raises Close then Raise DatabaseError else outcome).

(** [load_dataframe(query, params)]: the value stored under ["data"]. *)
Definition load_dataframe {R} (raises : db_call → bool) (stmt : statement R)
    : fetched R :=
  match (execute_query_calls raises stmt true).2 with
  | Ok results => results
  | Raise _ => Rows []
  end.

Global Instance result_fmap : FMap result := λ A B f r,
  match r with
  | Ok a => Ok (f a)
  | Raise e => Raise e
  end.

(** The value the statement gives when every call goes through. *)
Definition statement_value {R} (stmt : statement R) (fetch : bool) : fetched R :=
  match (if fetch then stmt_rows stmt else None) with
  | Some rows => Rows rows
  | None => Rowcount (stmt_rowcount stmt)
  end.

(** The server behaviour of the first model that a run stands for. *)
Definition server_of (raises : db_call → bool) : server :=
  if raises Connect then Unreachable
  else if raises Execute || raises Fetchall || raises Commit
       then Failing (raises Rollback)
       else Answering.

(** ** auth.py, the login form *)

(** What the page shows, and the restart of the script by [st.rerun()]. *)
Inductive ui_event :=
  | UiError (text : string)
  | UiWarning (text : string)
  | UiSuccess (text : string)
  | UiRerun.

Global Instance ui_event_eq_dec : EqDecision ui_event.
Proof. solve_decision. Defined.

(** The body of [if submit:] in [render_login_form]. *)
Definition login_submit (db : database) (username password : string)
    (t_login t_activity : Z) : session (list ui_event) :=
  if String.eqb username "" || String.eqb password ""
  then mret [UiError "Veuillez remplir tous les champs"]
  else
    match authenticate db username password with
    | Some user =>
        if negb (bool_decide (user = ∅)) then
          initialize_session user t_login t_activity;;
          mret [UiSuccess ("Bienvenue " +:+
                           format_atom (default (AStr username)
                                          (user !! "display_name")) +:+ "!");
                UiRerun]
        else mret [UiError "Nom d'utilisateur ou mot de passe incorrect"]
    | None => mret [UiError "Nom d'utilisateur ou mot de passe incorrect"]
    end.

(** ** main.py *)

(** [st.session_state.key]: a missing key is an [AttributeError]. *)
Definition session_getattr (key : string) : session value :=
  λ st, (st, match st !! key with
             | Some v => Ok v
             | None => Raise AttributeError
             end).

(** [x[key]]: only a dictionary of the model can be subscripted by a string. *)
Definition subscript (x : value) (key : string) : result atom :=
  match x with
  | Dict d => getitem d key
  | _ => Raise TypeError
  end.

(** The interface that one run of the script ends on. *)
Inductive page :=
  | LoginInterface
  | MainInterface
  | Restarted.

Global Instance page_eq_dec : EqDecision page.
Proof. solve_decision. Defined.

Section Main.

Variable fromisoformat : string → option datetime.

(** One run of [main()]: [t_check] is the clock reading of
    [check_session_timeout], [t_touch] the one of [update_activity].
    [st.rerun()] stops the run. *)
Definition main (t_check t_touch : Z) : session page :=
  present ← session_contains "authenticated";
  (if negb present
   then session_setitem "authenticated" (Atom (ABool false))
   else mret tt);;
  authenticated ← session_getattr "authenticated";
  restarted ←
    (if truthy authenticated then
       expired ← check_session_timeout fromisoformat 60 t_check;
       if expired : bool
       then logout;; (mret true : session bool)
       else update_activity t_touch;; (mret false : session bool)
     else (mret false : session bool));
  if restarted : bool then mret Restarted
  else
    authenticated ← session_getattr "authenticated";
    mret (if negb (truthy authenticated) then LoginInterface else MainInterface).

(** Runs of [main()] one after the other, each with its two clock readings;
    the pages they end on.  A run that raises ends the sequence there. *)
Fixpoint main_runs (clock : list (Z * Z)) (st : gmap string value)
    : gmap string value * result (list page) :=
  match clock with
  | [] => (st, Ok [])
  | (t_check, t_touch) :: rest =>
      match main t_check t_touch st with
      | (st', Ok p) =>
          match main_runs rest st' with
          | (st'', Ok ps) => (st'', Ok (p :: ps))
          | (st'', Raise e) => (st'', Raise e)
          end
      | (st', Raise e) => (st', Raise e)
      end
  end.

End Main.

(** The dashboard that [show_main_interface] renders for a role. *)
Inductive dashboard :=
  | StudentDashboard
  | ProfessorDashboard
  | DepartmentHeadDashboard
  | AdminNotice
  | ViceDeanNotice
  | UnknownRole.

Global Instance dashboard_eq_dec : EqDecision dashboard.
Proof. solve_decision. Defined.

Definition role_titles : gmap string string :=
  {[ "etudiant" := "Étudiant";
     "professeur" := "Professeur";
     "chef_departement" := "Chef de Département";
     "admin_examens" := "Administrateur Examens";
     "vice_doyen" := "Vice-Doyen" ]}.

(** The [if user['role'] == ... elif ...] chain. *)
Definition dashboard_for (role : atom) : dashboard :=
  if decide (role = AStr "etudiant") then StudentDashboard
  else if decide (role = AStr "professeur") then ProfessorDashboard
  else if decide (role = AStr "chef_departement") then DepartmentHeadDashboard
  else if decide (role = AStr "admin_examens") then AdminNotice
  else if decide (role = AStr "vice_doyen") then ViceDeanNotice
  else UnknownRole.

(** What [show_main_interface] puts on the page as far as the session
    decides it: the name in the welcome box, the role title of the heading
    and the dashboard it hands over to. *)
Record main_view := MainView {
  view_name : atom;
  view_title : string;
  view_dashboard : dashboard
}.

Inductive shown :=
  | Board (view : main_view)
  | LoggedOut.

(** [show_main_interface()]; [logout_clicked] is the state of the logout
    button.  The accesses to [user] come in the order of the source:
    [user.get('display_name', user['username'])], then
    [user['role'].replace(...)], which needs a string.  The text that
    [replace] and [title] build, the clock captions and the metrics are left
    out; the dashboards run inside a [try] that catches what they raise. *)
Definition show_main_interface (logout_clicked : bool) : session shown :=
  user ← session_getattr "user";
  username ← session_lift
    (match user with
     | Dict d => getitem d "username"
     | _ => Raise AttributeError
     end);
  name ← session_lift (get_method user "display_name" username);
  role ← session_lift (subscript user "role");
  role_text ← session_lift
    (match role with
     | AStr s => Ok s
     | _ => Raise AttributeError
     end);
  if logout_clicked then logout;; mret LoggedOut
  else mret (Board (MainView name
                      (default role_text (role_titles !! role_text))
                      (dashboard_for role))).

(** ** The identifiers that the dashboards query *)

(** [render_professor_dashboard], up to the professor id it queries. *)
Inductive professor_access :=
  | PleaseLogIn
  | ProfessorsOnly
  | ProfessorId (prof_id : atom).

Definition professor_guard : session professor_access :=
  present ← session_contains "user";
  if negb present then mret PleaseLogIn
  else
    user ← session_getattr "user";
    role ← session_lift (get_method user "role" ANone);
    if negb (bool_decide (role = AStr "professeur")) then mret ProfessorsOnly
    else
      prof_id ← session_lift (get_method user "linked_id" (AInt 1));
      mret (ProfessorId prof_id).

(** [render_student_dashboard], up to the student id it queries: the header
    reads [student_info] with [get], then comes [student_info['linked_id']]. *)
Definition student_entity : session atom :=
  student_info ← session_getattr "user";
  session_lift (get_method student_info "nom_complet" (AStr "Étudiant"));;
  session_lift (subscript student_info "linked_id").

(** [render_department_head_dashboard], up to the department id it queries:
    [chef_info.get('linked_entity_id', 0)]. *)
Definition department_entity : session atom :=
  chef_info ← session_getattr "user";
  session_lift (get_method chef_info "linked_entity_id" (AInt 0)).

(** The store after a successful login of the row [u] over the store [st]. *)
Definition logged_in (u : users_row) (t_login t_activity : Z)
    (st : gmap string value) : gmap string value :=
  (initialize_session (identity_of u) t_login t_activity st).1.

(** Every run of [main] checks the session at most 60 minutes after the
    activity recorded before it: [last] at first, then the touch of the run
    before. *)
Fixpoint visited_in_time (last : Z) (clock : list (Z * Z)) : Prop :=
  match clock with
  | [] => True
  | (t_check, t_touch) :: rest =>
      t_check - last ≤ 60 * minute ∧ visited_in_time t_touch rest
  end.

(** The store of [main] for a visitor without session: the flag is added
    when it is missing. *)
Definition with_flag (st : gmap string value) : gmap string value :=
  match st !! "authenticated" with
  | Some _ => st
  | None => <["authenticated" := Atom (ABool false)]> st
  end.

(** The statement of [authenticate] for alice on the sample table. *)
Definition alice_statement : statement (gmap string atom) :=
  Statement (Some (active_user_query "alice" (db_users campus))) 1.

(** Visits of the main page, each within the hour after the one before. *)
Definition hourly_visits : list (Z * Z) :=
  [ (t0 + 30 * minute, t0 + 30 * minute + 1);
    (t0 + 90 * minute, t0 + 90 * minute + 1);
    (t0 + 150 * minute, t0 + 150 * minute + 1) ].

(** A run in which only the call [c] raises. *)
Definition only (c : db_call) : db_call → bool := λ c', bool_decide (c' = c).

(** A run without fault. *)
Definition no_fault : db_call → bool := λ _, false.

(** * Properties *)

(** ** The directory lookup *)

Lemma execute_query_answering {R} db (q : list users_row → list R) :
  db_server db = Answering → execute_query db q = Ok (q (db_users db)).
Proof.
  destruct db as [srv table]; simpl. by intros ->.
Qed.

Lemma execute_query_fault {R} db (q : list users_row → list R) :
  db_server db ≠ Answering →
  execute_query db q = Ok [] ∨ execute_query db q = Raise DatabaseError.
Proof.
  destruct db as [[|[]|] table]; simpl; intros Hs; auto. congruence.
Qed.

Lemma password_test (password : string) :
  negb (String.eqb password "") = bool_decide (password ≠ "").
Proof.
  destruct (String.eqb_spec password "") as [->|Hne];
    case_bool_decide; simpl; congruence.
Qed.

(** What [authenticate] computes once the server answers: it looks at the
    first selected row and at the emptiness of the password, at nothing else. *)
Lemma authenticate_answering db username password :
  db_server db = Answering →
  authenticate db username password =
    match filter (λ u, u_username u = username ∧ u_is_active u = true)
                 (db_users db) with
    | u :: _ => if bool_decide (password ≠ "") then Some (identity_of u) else None
    | [] => None
    end.
Proof.
  intros Hs. unfold authenticate, active_user_query.
  rewrite (execute_query_answering _ _ Hs). simpl.
  destruct (filter _ (db_users db)) as [|u rest]; [done|].
  rewrite fmap_cons, password_test.
  by destruct (bool_decide (password ≠ "")).
Qed.

Lemma authenticate_fault db username password :
  db_server db ≠ Answering → authenticate db username password = None.
Proof.
  intros Hs. unfold authenticate.
  by destruct (execute_query_fault db (active_user_query username) Hs) as [-> | ->].
Qed.

Lemma authenticate_empty_password db username :
  authenticate db username "" = None.
Proof.
  destruct (decide (db_server db = Answering)) as [Hs|Hs].
  - rewrite (authenticate_answering _ _ _ Hs).
    by destruct (filter _ (db_users db)).
  - by apply authenticate_fault.
Qed.

Lemma NoDup_fmap_elem_inj {A B} (f : A → B) (l : list A) x y :
  NoDup (f <$> l) → x ∈ l → y ∈ l → f x = f y → x = y.
Proof.
  induction l as [|a l IH]; intros Hnodup Hx Hy Hf.
  - by apply not_elem_of_nil in Hx.
  - rewrite fmap_cons in Hnodup.
    apply NoDup_cons in Hnodup as [Hfresh Hnodup].
    apply elem_of_cons in Hx as [-> | Hx]; apply elem_of_cons in Hy as [-> | Hy].
    + done.
    + destruct Hfresh. rewrite Hf. by apply list_elem_of_fmap_2.
    + destruct Hfresh. rewrite <- Hf. by apply list_elem_of_fmap_2.
    + by apply IH.
Qed.

Lemma usernames_unique_inj table :
  usernames_unique table →
  ∀ u1 u2, u1 ∈ table → u2 ∈ table →
    u_is_active u1 = true → u_is_active u2 = true →
    u_username u1 = u_username u2 → u1 = u2.
Proof.
  intros Huniq u1 u2 H1 H2 Ha1 Ha2 Hname.
  apply (NoDup_fmap_elem_inj u_username _ u1 u2 Huniq);
    [by apply list_elem_of_filter..|done].
Qed.

(** C1. An active row whose user name is the submitted one, with any
    non-empty secret, makes [authenticate] succeed with the user name, the
    role and the linked id of that row; the user name identifies the row
    among the active ones, and the server answers the query.  The secret
    takes part in the outcome through its emptiness only. *)
Theorem authenticate_accepts_active_user db u username secret :
  db_server db = Answering →
  usernames_unique (db_users db) →
  u ∈ db_users db →
  u_is_active u = true →
  u_username u = username →
  secret ≠ "" →
  ∃ identity,
    authenticate db username secret = Some identity ∧
    identity = identity_of u ∧
    identity !! "username" = Some (AStr (u_username u)) ∧
    identity !! "role" = Some (AStr (u_role u)) ∧
    identity !! "linked_id" = Some (from_option AInt ANone (u_linked_id u)).
Proof.
  intros Hs Huniq Hin Hact Hname Hsecret.
  exists (identity_of u). split; [|by repeat split].
  pose proof (usernames_unique_inj _ Huniq) as Hinj.
  rewrite (authenticate_answering _ _ _ Hs).
  assert (u ∈ filter (λ u, u_username u = username ∧ u_is_active u = true)
                     (db_users db)) as Hsel
    by (apply list_elem_of_filter; auto).
  destruct (filter _ (db_users db)) as [|u' rest] eqn:Hfilter.
  { by apply not_elem_of_nil in Hsel. }
  assert (u' ∈ filter (λ u, u_username u = username ∧ u_is_active u = true)
                      (db_users db)) as Hsel'
    by (rewrite Hfilter; left).
  apply list_elem_of_filter in Hsel' as [[Hname' Hact'] Hin'].
  rewrite (Hinj u' u) by congruence.
  by rewrite bool_decide_eq_true_2.
Qed.

(** C2. [authenticate] returns [None] when no active row carries the user
    name, whatever the secret and whatever the server does, and when the
    secret is empty; rows that are not active count for nothing: the outcome
    is the one on the table without them. *)
Theorem authenticate_rejects db username secret :
  ((∀ u, u ∈ db_users db → u_username u = username → u_is_active u = false) →
   authenticate db username secret = None) ∧
  authenticate db username "" = None ∧
  authenticate db username secret =
    authenticate (without_inactive db) username secret.
Proof.
  split; [|split].
  - intros Hnone.
    destruct (decide (db_server db = Answering)) as [Hs|Hs];
      [|by apply authenticate_fault].
    rewrite (authenticate_answering _ _ _ Hs).
    destruct (filter _ (db_users db)) as [|u rest] eqn:Hfilter; [done|].
    assert (u ∈ filter (λ u, u_username u = username ∧ u_is_active u = true)
                       (db_users db)) as Hsel
      by (rewrite Hfilter; left).
    apply list_elem_of_filter in Hsel as [[Hname Hact] Hin].
    specialize (Hnone u Hin Hname). congruence.
  - apply authenticate_empty_password.
  - destruct (decide (db_server db = Answering)) as [Hs|Hs].
    + rewrite !authenticate_answering by done. simpl.
      rewrite list_filter_filter.
      rewrite (list_filter_iff
                 (λ u, (u_username u = username ∧ u_is_active u = true) ∧
                       u_is_active u = true)
                 (λ u, u_username u = username ∧ u_is_active u = true));
        [done|]. intros u. tauto.
    + by rewrite !authenticate_fault.
Qed.

(** C9. Two non-empty secrets give the same outcome, for every user name
    and every state of the directory. *)
Theorem authenticate_ignores_secret_content db username s1 s2 :
  s1 ≠ "" → s2 ≠ "" →
  authenticate db username s1 = authenticate db username s2.
Proof.
  intros H1 H2.
  destruct (decide (db_server db = Answering)) as [Hs|Hs].
  - rewrite !authenticate_answering by done.
    by rewrite !bool_decide_eq_true_2.
  - by rewrite !authenticate_fault.
Qed.

(** C7, as the code has it. A fault of the lookup, whether [execute_query]
    swallows it or lets it through, ends in [None]: the outcome of a
    directory that answers and holds no such user. *)
Theorem authenticate_masks_lookup_fault db username secret :
  db_server db ≠ Answering →
  authenticate db username secret = None ∧
  authenticate db username secret =
    authenticate (Database Answering []) username secret.
Proof.
  intros Hs. split; [by apply authenticate_fault|].
  rewrite authenticate_fault by done.
  by rewrite authenticate_answering.
Qed.

(** C7, the claim refuted: with the server unreachable, and with the server
    failing during the query, a known user gets the very outcome of an unknown
    one on a healthy directory. *)
Lemma lookup_fault_is_not_distinguished :
  authenticate (Database Unreachable [alice]) "alice" "secret" =
    authenticate (Database Answering []) "alice" "secret" ∧
  authenticate (Database (Failing true) [alice]) "alice" "secret" =
    authenticate (Database Answering []) "alice" "secret" ∧
  authenticate (Database (Failing false) [alice]) "alice" "secret" =
    authenticate (Database Answering [bob]) "alice" "secret".
Proof. by vm_compute. Qed.

(** ** Keys built from a role *)

Lemma ends_with_app suffix s : ends_with suffix (s +:+ suffix) = true.
Proof.
  induction s as [|c s IH].
  - change ("" +:+ suffix) with suffix.
    destruct suffix; cbn [ends_with]; by rewrite String.eqb_refl.
  - change (String c s +:+ suffix) with (String c (s +:+ suffix)).
    cbn [ends_with]. rewrite IH. by case_match.
Qed.

Lemma role_key_ne role suffix key :
  ends_with suffix key = false → role +:+ suffix ≠ key.
Proof.
  intros Hkey <-. by rewrite ends_with_app in Hkey.
Qed.

Lemma role_keys_distinct role : role +:+ "_id" ≠ role +:+ "_name".
Proof. by intros ?%(inj (String.app role)). Qed.

Ltac session_unfold :=
  unfold mbind, session_bind, mret, session_ret, session_lift,
    session_contains, session_getitem, session_get, session_setitem,
    session_keys, getitem;
  cbv beta.

(** Runs a session function on a store whose slot is known by [H]. *)
Ltac session_run H := repeat (progress (simpl; rewrite ?H)).

(** ** The session functions *)

Section SessionProperties.

Variable fromisoformat : string → option datetime.

Implicit Types st : gmap string value.

(** *** update_activity *)

Lemma update_activity_eq now st :
  update_activity now st =
    (if is_authenticated st
     then <["last_activity" := Moment (naive now)]> st else st, Ok tt).
Proof.
  unfold update_activity, is_authenticated. session_unfold.
  destruct (st !! "authenticated") as [v|] eqn:Hauth; session_run Hauth;
    [|done].
  by destruct (truthy v).
Qed.

(** *** check_session_timeout *)

Lemma check_absent timeout now st :
  st !! "last_activity" = None →
  check_session_timeout fromisoformat timeout now st = (st, Ok true).
Proof.
  intros Hla. unfold check_session_timeout. session_unfold.
  by session_run Hla.
Qed.

Lemma check_moment timeout now st d :
  st !! "last_activity" = Some (Moment d) →
  check_session_timeout fromisoformat timeout now st =
    (st, elapsed_exceeds timeout now d).
Proof.
  intros Hla. unfold check_session_timeout, elapsed_exceeds. session_unfold.
  session_run Hla.
  destruct (timedelta_minutes timeout); simpl; [|done].
  by destruct (datetime_sub (naive now) d).
Qed.

Lemma check_string timeout now st s :
  st !! "last_activity" = Some (Atom (AStr s)) →
  check_session_timeout fromisoformat timeout now st =
    (st, match fromisoformat s with
         | Some d => elapsed_exceeds timeout now d
         | None => Raise ValueError
         end).
Proof.
  intros Hla. unfold check_session_timeout, elapsed_exceeds. session_unfold.
  session_run Hla.
  destruct (fromisoformat s) as [d|]; simpl; [|done].
  destruct (timedelta_minutes timeout); simpl; [|done].
  by destruct (datetime_sub (naive now) d).
Qed.

Lemma check_reads_only timeout now st :
  (check_session_timeout fromisoformat timeout now st).1 = st.
Proof.
  destruct (st !! "last_activity") as [[[| | |s]|d|u]|] eqn:Hla;
    try (by erewrite check_absent);
    try (by erewrite check_moment);
    try (by erewrite check_string).
  all: unfold check_session_timeout; session_unfold; session_run Hla.
  all: by destruct (timedelta_minutes timeout).
Qed.

Lemma elapsed_exceeds_naive timeout now t :
  timedelta_in_range timeout →
  elapsed_exceeds timeout now (naive t) =
    Ok (bool_decide (timeout * minute < now - t)).
Proof.
  intros Hrange. unfold elapsed_exceeds, timedelta_minutes.
  rewrite bool_decide_eq_true_2 by done. simpl.
  unfold mret, result_ret. f_equal. apply bool_decide_ext.
  unfold minute. lia.
Qed.

(** *** logout *)

(** The deletion loop over distinct keys that the store holds deletes
    them all and raises nothing. *)
Lemma delete_loop keys : ∀ st,
  NoDup keys →
  (∀ k, k ∈ keys → is_Some (st !! k)) →
  ∃ st', for_each keys session_delitem st = (st', Ok tt) ∧
         ∀ k, st' !! k = if decide (k ∈ keys) then None else st !! k.
Proof.
  induction keys as [|key keys IH]; intros st Hnodup Hheld.
  - exists st. split; [done|]. intros k.
    by rewrite decide_False by apply not_elem_of_nil.
  - apply NoDup_cons in Hnodup as [Hfresh Hnodup].
    destruct (Hheld key) as [v Hv]; [left|].
    destruct (IH (delete key st) Hnodup) as (st' & Hloop & Hst').
    { intros k Hk. rewrite lookup_delete_ne by (intros ->; done).
      apply Hheld. by right. }
    exists st'. split.
    + cbn [for_each]. unfold mbind, session_bind, session_delitem at 1.
      by rewrite Hv.
    + intros k. rewrite Hst'.
      destruct (decide (k = key)) as [->|Hne].
      * rewrite (decide_True (P := key ∈ key :: keys)) by left.
        case_decide; [done|]. apply lookup_delete_eq.
      * rewrite lookup_delete_ne by done.
        destruct (decide (k ∈ keys)) as [Hk|Hk].
        -- by rewrite decide_True by (by right).
        -- rewrite decide_False; [done|].
           by intros [?|?]%elem_of_cons.
Qed.

Lemma logout_clears st :
  user_slot_typed st → logout st = (∅, Ok tt).
Proof.
  intros Huser.
  destruct (delete_loop (map_to_list st).*1 st) as (st' & Hloop & Hst').
  { apply NoDup_fst_map_to_list. }
  { intros k [[k' v] [-> Hkv]]%list_elem_of_fmap.
    apply elem_of_map_to_list in Hkv. by exists v. }
  assert (st' = ∅) as ->.
  { apply map_empty. intros k. rewrite Hst'. case_decide as Hk; [done|].
    destruct (st !! k) as [v|] eqn:Hv; [|done].
    exfalso. apply Hk. apply list_elem_of_fmap. exists (k, v).
    split; [done|]. by apply elem_of_map_to_list. }
  unfold logout. session_unfold.
  destruct Huser as [Huser | [d Huser]]; session_run Huser; exact Hloop.
Qed.

Lemma logout_untyped_user st v :
  st !! "user" = Some v → (∀ d, v ≠ Dict d) →
  logout st = (st, Raise AttributeError).
Proof.
  intros Huser Hv. unfold logout. session_unfold. session_run Huser.
  destruct v as [a|d|d]; simpl; try done. by destruct (Hv d).
Qed.

Lemma logout_store st : (logout st).1 = ∅ ∨ (logout st).1 = st.
Proof.
  destruct (st !! "user") as [v|] eqn:Huser.
  - destruct v as [a|d|d].
    + right. by erewrite logout_untyped_user.
    + right. by erewrite logout_untyped_user.
    + left. rewrite logout_clears; [done|]. right. eauto.
  - left. rewrite logout_clears; [done|]. by left.
Qed.

(** *** initialize_session *)

Lemma initialize_session_ok user_data t_login t_activity st
    role linked_id username :
  user_data !! "role" = Some role →
  user_data !! "linked_id" = Some linked_id →
  user_data !! "username" = Some username →
  initialize_session user_data t_login t_activity st =
    (<[format_atom role +:+ "_name" :=
         Atom (default username (user_data !! "display_name"))]>
       (<[format_atom role +:+ "_id" := Atom linked_id]>
          (session_base user_data t_login t_activity st)),
     Ok tt).
Proof.
  intros Hrole Hlinked Hname.
  unfold initialize_session, session_base. cbn [session_update].
  session_unfold. simpl. rewrite Hrole. simpl. rewrite Hlinked. simpl.
  by rewrite Hname.
Qed.

(** Whatever the identity holds, the slots whose name does not end like a
    role key are the ones of the [update] call. *)
Lemma initialize_session_fixed user_data t_login t_activity st key :
  ends_with "_id" key = false → ends_with "_name" key = false →
  (initialize_session user_data t_login t_activity st).1 !! key =
    session_base user_data t_login t_activity st !! key.
Proof.
  intros Hid Hnm.
  unfold initialize_session. cbn [session_update].
  session_unfold. simpl. fold (session_base user_data t_login t_activity st).
  destruct (user_data !! "role") as [role|]; simpl; [|done].
  destruct (user_data !! "linked_id") as [linked_id|]; simpl; [|done].
  destruct (user_data !! "username") as [username|]; simpl.
  - rewrite !lookup_insert_ne by (by apply role_key_ne). done.
  - rewrite !lookup_insert_ne by (by apply role_key_ne). done.
Qed.

Lemma session_base_slots user_data t_login t_activity st :
  let st' := session_base user_data t_login t_activity st in
  st' !! "authenticated" = Some (Atom (ABool true)) ∧
  st' !! "user" = Some (Dict user_data) ∧
  st' !! "login_time" = Some (Moment (naive t_login)) ∧
  st' !! "last_activity" = Some (Moment (naive t_activity)).
Proof. unfold session_base. by simplify_map_eq. Qed.

(** C3. On a session whose [last_activity] slot is empty or holds a
    timestamp, and for a timeout that [timedelta] can hold,
    [check_session_timeout] answers, and answers [True] exactly when the
    slot is empty or the time elapsed since the recorded activity is
    strictly greater than the timeout.  An empty slot is expired for every
    timeout.  With 60 minutes the answer is [False] after 59 minutes and 59
    seconds and after 60 minutes sharp, [True] one microsecond later. *)
Theorem check_session_timeout_exact st timeout now :
  timedelta_in_range timeout →
  (st !! "last_activity" = None ∨
   ∃ t, st !! "last_activity" = Some (Moment (naive t))) →
  (∃ expired,
     check_session_timeout fromisoformat timeout now st = (st, Ok expired) ∧
     (expired = true ↔
        st !! "last_activity" = None ∨
        ∃ t, st !! "last_activity" = Some (Moment (naive t)) ∧
             timeout * minute < now - t)) ∧
  (st !! "last_activity" = None →
   ∀ timeout' now',
     check_session_timeout fromisoformat timeout' now' st = (st, Ok true)) ∧
  (∀ t, st !! "last_activity" = Some (Moment (naive t)) →
     check_session_timeout fromisoformat 60 (t + 59 * minute + 59000000) st
       = (st, Ok false) ∧
     check_session_timeout fromisoformat 60 (t + 60 * minute) st
       = (st, Ok false) ∧
     check_session_timeout fromisoformat 60 (t + 60 * minute + 1) st
       = (st, Ok true)).
Proof.
  intros Hrange Hslot. split; [|split].
  - destruct Hslot as [Hnone | [t Ht]].
    + exists true. split; [by apply check_absent|]. split; auto.
    + exists (bool_decide (timeout * minute < now - t)). split.
      * rewrite (check_moment _ _ _ _ Ht).
        by rewrite elapsed_exceeds_naive.
      * rewrite bool_decide_eq_true. split.
        -- intros Hlt. right. eauto.
        -- intros [Hnone | (t' & Ht' & Hlt)]; [congruence|].
           rewrite Ht in Ht'. by simplify_eq.
  - intros Hnone timeout' now'. by apply check_absent.
  - intros t Ht. rewrite !(check_moment _ _ _ _ Ht).
    rewrite !elapsed_exceeds_naive by (unfold timedelta_in_range; by vm_compute).
    repeat split; f_equal; f_equal.
    + apply bool_decide_eq_false. unfold minute. lia.
    + apply bool_decide_eq_false. unfold minute. lia.
    + apply bool_decide_eq_true. unfold minute. lia.
Qed.

(** C5. [logout] empties the store whatever it holds, the [user] slot
    being a dictionary when it is filled; on the empty store it changes
    nothing, a second [logout] gives what the first gave, and the store it
    leaves is expired for every timeout and every clock reading. *)
Theorem logout_discards_everything st :
  user_slot_typed st →
  logout st = (∅, Ok tt) ∧
  logout ∅ = (∅, Ok tt) ∧
  logout (logout st).1 = logout st ∧
  ∀ timeout now,
    check_session_timeout fromisoformat timeout now (logout st).1
      = (∅, Ok true).
Proof.
  intros Huser.
  assert (logout ∅ = (∅, Ok tt)) as Hempty by (apply logout_clears; by left).
  rewrite (logout_clears st Huser). simpl.
  split; [done|]. split; [done|]. split; [done|].
  intros timeout now. by apply check_absent.
Qed.

(** C6. [update_activity] leaves the store as it is when the
    [authenticated] flag is missing or false; when the flag is true it
    stores the clock reading in [last_activity] and every other slot keeps
    its content.  It does so on a session that [check_session_timeout]
    reports expired at that very reading. *)
Theorem update_activity_frame st now :
  (is_authenticated st = false → update_activity now st = (st, Ok tt)) ∧
  (is_authenticated st = true →
   ∃ st', update_activity now st = (st', Ok tt) ∧
          st' !! "last_activity" = Some (Moment (naive now)) ∧
          ∀ key, key ≠ "last_activity" → st' !! key = st !! key) ∧
  (∀ timeout,
     is_authenticated st = true →
     check_session_timeout fromisoformat timeout now st = (st, Ok true) →
     (update_activity now st).1 !! "last_activity"
       = Some (Moment (naive now))).
Proof.
  rewrite update_activity_eq. split; [|split].
  - by intros ->.
  - intros ->. eexists. split; [done|]. split.
    + apply lookup_insert_eq.
    + intros key Hkey. by apply lookup_insert_ne.
  - intros timeout -> _. apply lookup_insert_eq.
Qed.

(** C10. A session that records its last activity as a string that
    [fromisoformat] reads gets from [check_session_timeout] the answer, or
    the exception, of the session that holds the timestamp read. *)
Theorem check_session_timeout_iso_string st s d timeout now :
  fromisoformat s = Some d →
  (check_session_timeout fromisoformat timeout now
     (<["last_activity" := Atom (AStr s)]> st)).2 =
  (check_session_timeout fromisoformat timeout now
     (<["last_activity" := Moment d]> st)).2.
Proof.
  intros Hread.
  rewrite (check_string timeout now _ s) by apply lookup_insert_eq.
  rewrite (check_moment timeout now _ d) by apply lookup_insert_eq.
  simpl. by rewrite Hread.
Qed.

(** C4, as the code has it. For an identity that carries a role, a linked
    id and a user name, [initialize_session] raises nothing and stores the
    flag, the identity, the two clock readings and the two role-keyed
    fields computed from the identity; every other slot of the previous
    store keeps its content, so that the new store holds exactly the six
    fields and the slots the previous store held. *)
Theorem initialize_session_merges user_data t_login t_activity st
    role linked_id username :
  user_data !! "role" = Some role →
  user_data !! "linked_id" = Some linked_id →
  user_data !! "username" = Some username →
  ∃ st',
    initialize_session user_data t_login t_activity st = (st', Ok tt) ∧
    st' !! "authenticated" = Some (Atom (ABool true)) ∧
    st' !! "user" = Some (Dict user_data) ∧
    st' !! "login_time" = Some (Moment (naive t_login)) ∧
    st' !! "last_activity" = Some (Moment (naive t_activity)) ∧
    st' !! (format_atom role +:+ "_id") = Some (Atom linked_id) ∧
    st' !! (format_atom role +:+ "_name") =
      Some (Atom (default username (user_data !! "display_name"))) ∧
    (∀ key, key ∉ session_fields (format_atom role) →
            st' !! key = st !! key) ∧
    (∀ key, is_Some (st' !! key) ↔
            key ∈ session_fields (format_atom role) ∨ is_Some (st !! key)).
Proof.
  intros Hrole Hlinked Hname.
  rewrite (initialize_session_ok _ t_login t_activity st _ _ _
             Hrole Hlinked Hname).
  eexists. split; [done|].
  set (st' := <[format_atom role +:+ "_name" := _]> _).
  destruct (session_base_slots user_data t_login t_activity st)
    as (Hauth & Huser & Hlogin & Hact).
  assert (∀ key, ends_with "_id" key = false →
                 ends_with "_name" key = false →
                 st' !! key
                 = session_base user_data t_login t_activity st !! key)
    as Hfixed.
  { intros key Hid Hnm. unfold st'.
    by rewrite !lookup_insert_ne by (by apply role_key_ne). }
  assert (st' !! (format_atom role +:+ "_id") = Some (Atom linked_id))
    as Hid.
  { unfold st'.
    rewrite lookup_insert_ne by apply not_eq_sym, role_keys_distinct.
    apply lookup_insert_eq. }
  assert (st' !! (format_atom role +:+ "_name") =
            Some (Atom (default username (user_data !! "display_name"))))
    as Hnm by apply lookup_insert_eq.
  assert (∀ key, key ∉ session_fields (format_atom role) →
                 st' !! key = st !! key) as Hother.
  { intros key Hkey. unfold session_fields in Hkey.
    rewrite !not_elem_of_cons in Hkey.
    destruct Hkey as (? & ? & ? & ? & ? & ? & _).
    unfold st', session_base. by rewrite !lookup_insert_ne by done. }
  rewrite !Hfixed by done.
  split_and!; try done.
  intros key.
  destruct (decide (key ∈ session_fields (format_atom role))) as [Hin|Hout].
  - split; [by left|]. intros _. unfold session_fields in Hin.
    rewrite !elem_of_cons in Hin.
    destruct Hin as [-> | [-> | [-> | [-> | [-> | [-> | Hin]]]]]];
      rewrite ?Hfixed by done; rewrite ?Hauth, ?Huser, ?Hlogin, ?Hact,
        ?Hid, ?Hnm; try done.
    by apply not_elem_of_nil in Hin.
  - rewrite (Hother key Hout). split; [by right|].
    by intros [Hin|Hsome].
Qed.

(** *** The invariant of the session life *)

Lemma times_in_order_weaken st t later :
  times_in_order st (t :: later) → times_in_order st later.
Proof.
  intros [Hanon | (t1 & t2 & Hlogin & Hact & Hle & Hlater)]; [by left|].
  right. exists t1, t2. by apply Forall_cons in Hlater as [_ Hlater].
Qed.

Lemma times_in_order_sound st later :
  times_in_order st later → activity_not_before_login st.
Proof.
  intros [(_ & Hlogin & Hact) | (t1 & t2 & Hlogin & Hact & Hle & _)].
  - by left.
  - right. by exists t1, t2.
Qed.

Lemma perform_keeps_order st op later :
  StronglySorted Z.le (clock_readings op ++ later) →
  times_in_order st (clock_readings op ++ later) →
  times_in_order (perform fromisoformat st op) later.
Proof.
  intros Hsorted Horder.
  destruct op as [identity t_login t_activity | now | timeout now | ];
    simpl in *.
  - (* EstablishSession *)
    apply StronglySorted_cons in Hsorted as [Hlogin Hsorted].
    apply StronglySorted_cons in Hsorted as [Hact _].
    apply Forall_cons in Hlogin as [Hle _].
    destruct (session_base_slots identity t_login t_activity st)
      as (_ & _ & Hlt & Hla).
    right. exists t_login, t_activity.
    by rewrite !initialize_session_fixed by done.
  - (* Touch *)
    apply StronglySorted_cons in Hsorted as [Hnow _].
    rewrite update_activity_eq. simpl.
    destruct (is_authenticated st) eqn:Hauth;
      [|by eapply times_in_order_weaken].
    destruct Horder as [(Hanon & _) | (t1 & t2 & Hlogin & Hact & Hle & Hlater)];
      [congruence|].
    apply Forall_cons in Hlater as [Hle' _].
    right. exists t1, now.
    rewrite lookup_insert_ne by done. rewrite lookup_insert_eq.
    split_and!; [done..|lia|done].
  - (* IsExpired *)
    rewrite check_reads_only. by eapply times_in_order_weaken.
  - (* Terminate *)
    destruct (logout_store st) as [-> | ->]; [|done].
    by left.
Qed.

Lemma run_keeps_order ops : ∀ st,
  clock_monotone ops →
  times_in_order st (ops ≫= clock_readings) →
  activity_not_before_login (run fromisoformat ops st).
Proof.
  unfold clock_monotone.
  induction ops as [|op ops IH]; intros st Hsorted Horder.
  - by eapply times_in_order_sound.
  - rewrite bind_cons in Hsorted, Horder. simpl.
    apply IH.
    + by eapply StronglySorted_app_1_r.
    + by apply perform_keeps_order.
Qed.

(** C8. Start from a store without a session and run any sequence of the
    four operations, the clock never running backwards from one reading to
    the next: the store reached records no timestamp, or records both with
    [login_time <= last_activity]. *)
Theorem last_activity_not_before_login ops st :
  anonymous st →
  clock_monotone ops →
  activity_not_before_login (run fromisoformat ops st).
Proof.
  intros Hanon Hclock. apply run_keeps_order; [done|]. by left.
Qed.

End SessionProperties.

(** ** The functions on sample data *)

Example parse_isoformat_epoch :
  parse_isoformat "0001-01-01T00:00:00" = Some (naive 0).
Proof. by vm_compute. Qed.

Example parse_isoformat_t0 :
  parse_isoformat "2024-03-01T12:30:15.250000" = Some (naive t0).
Proof. by vm_compute. Qed.

Example parse_isoformat_aware :
  parse_isoformat "2024-03-01T12:30:15+02:00" =
    Some (Datetime (t0 - 250000) (Some (120 * minute))).
Proof. by vm_compute. Qed.

Example parse_isoformat_rejects : parse_isoformat "yesterday" = None.
Proof. by vm_compute. Qed.

Example authenticate_alice :
  authenticate campus "alice" "any" = Some (identity_of alice).
Proof. by vm_compute. Qed.

Example authenticate_bob : authenticate campus "bob" "any" = Some bob_identity.
Proof. by vm_compute. Qed.

Example authenticate_is_case_sensitive : authenticate campus "Alice" "any" = None.
Proof. by vm_compute. Qed.

Example initialize_session_bob :
  initialize_session bob_identity t0 t0 ∅ = (bob_session, Ok tt).
Proof. by vm_compute. Qed.

(** Scenario 6: login at T0, touch ten minutes later, the question asked 65
    minutes after the login: 55 minutes have passed since the last activity. *)
Example scenario_touch_then_check :
  let st := run parse_isoformat
              [EstablishSession bob_identity t0 t0; Touch (t0 + 10 * minute)] ∅ in
  st !! "last_activity" = Some (Moment (naive (t0 + 10 * minute))) ∧
  (check_session_timeout parse_isoformat 60 (t0 + 65 * minute) st).2 = Ok false.
Proof. by vm_compute. Qed.

(** An expired session that is touched is not expired any more. *)
Example touch_revives_expired_session :
  (check_session_timeout parse_isoformat 60 (t0 + 90 * minute) bob_session).2
    = Ok true ∧
  (check_session_timeout parse_isoformat 60 (t0 + 90 * minute)
     (update_activity (t0 + 90 * minute) bob_session).1).2 = Ok false.
Proof. by vm_compute. Qed.

(** Outside the hypotheses of the theorems: a timeout beyond the range of
    [timedelta], an aware timestamp, a [user] slot that is no dictionary, an
    identity without role. *)
Example check_session_timeout_overflow :
  (check_session_timeout parse_isoformat 2000000000000 (t0 + minute)
     bob_session).2 = Raise OverflowError.
Proof. by vm_compute. Qed.

Example check_session_timeout_aware :
  (check_session_timeout parse_isoformat 60 (t0 + minute)
     {[ "last_activity" := Atom (AStr "2024-03-01T12:30:15+02:00") ]}).2
    = Raise TypeError.
Proof. by vm_compute. Qed.

Example logout_untyped :
  logout {[ "user" := Atom (AStr "bob") ]}
    = ({[ "user" := Atom (AStr "bob") ]}, Raise AttributeError).
Proof. by vm_compute. Qed.

Example initialize_session_without_role :
  (initialize_session {[ "username" := AStr "bob" ]} t0 t0 ∅).2
    = Raise (KeyError "role").
Proof. by vm_compute. Qed.

(** ** Instances and refutations *)

(** C4, the claim refuted: the role-keyed fields that a student session left
    in the store are still there after a professor is established, and the
    store is not the one that the same call builds from nothing.  Two logins
    in a row, student then professor, reach such a store from the empty one. *)
Lemma stale_role_fields_survive :
  let st' := (initialize_session bob_identity t0 t0 student_leftover).1 in
  (initialize_session bob_identity t0 t0 student_leftover).2 = Ok tt ∧
  st' !! "etudiant_id" = Some (Atom (AInt 42)) ∧
  st' !! "etudiant_name" = Some (Atom (AStr "Étudiant Test")) ∧
  st' ≠ (initialize_session bob_identity t0 t0 ∅).1 ∧
  run parse_isoformat
      [ EstablishSession (identity_of alice) t0 t0;
        EstablishSession bob_identity (t0 + minute) (t0 + minute) ] ∅
    !! "etudiant_id" = Some (Atom (AInt 42)).
Proof.
  split_and!; [by vm_compute..| |by vm_compute].
  intros Heq. apply (f_equal (λ m : gmap string value, m !! "etudiant_id")) in Heq.
  by vm_compute in Heq.
Qed.

Lemma authenticate_accepts_active_user_witness :
  ∃ identity,
    authenticate campus "alice" "opensesame" = Some identity ∧
    identity = identity_of alice ∧
    identity !! "username" = Some (AStr (u_username alice)) ∧
    identity !! "role" = Some (AStr (u_role alice)) ∧
    identity !! "linked_id" = Some (from_option AInt ANone (u_linked_id alice)).
Proof.
  apply (authenticate_accepts_active_user campus alice "alice" "opensesame").
  - reflexivity.
  - apply (bool_decide_unpack _). by vm_compute.
  - apply (bool_decide_unpack _). by vm_compute.
  - reflexivity.
  - reflexivity.
  - discriminate.
Defined.

Lemma authenticate_rejects_witness :
  authenticate campus "carol" "opensesame" = None.
Proof.
  apply (proj1 (authenticate_rejects campus "carol" "opensesame")).
  intros u Hu Hname. simpl in Hu.
  apply (bool_decide_unpack _) . revert Hu Hname.
  rewrite !elem_of_cons. intros [-> | [-> | [-> | Hu]]] Hname; try done.
  by apply not_elem_of_nil in Hu.
Defined.

Lemma authenticate_ignores_secret_content_witness :
  authenticate campus "alice" "opensesame" = authenticate campus "alice" "x".
Proof.
  apply (authenticate_ignores_secret_content campus "alice" "opensesame" "x");
    discriminate.
Defined.

Lemma authenticate_masks_lookup_fault_witness :
  authenticate (Database Unreachable [alice]) "alice" "opensesame" = None ∧
  authenticate (Database Unreachable [alice]) "alice" "opensesame" =
    authenticate (Database Answering []) "alice" "opensesame".
Proof.
  apply (authenticate_masks_lookup_fault (Database Unreachable [alice])).
  discriminate.
Defined.

Lemma check_session_timeout_exact_witness :
  ∃ expired,
    check_session_timeout parse_isoformat 60 (t0 + 61 * minute) bob_session
      = (bob_session, Ok expired) ∧
    (expired = true ↔
       bob_session !! "last_activity" = None ∨
       ∃ t, bob_session !! "last_activity" = Some (Moment (naive t)) ∧
            60 * minute < t0 + 61 * minute - t).
Proof.
  apply (check_session_timeout_exact parse_isoformat bob_session 60
           (t0 + 61 * minute)).
  - unfold timedelta_in_range. by vm_compute.
  - right. exists t0. reflexivity.
Defined.

Lemma initialize_session_merges_witness :
  ∃ st',
    initialize_session bob_identity t0 (t0 + 3) student_leftover = (st', Ok tt) ∧
    st' !! "authenticated" = Some (Atom (ABool true)) ∧
    st' !! "user" = Some (Dict bob_identity) ∧
    st' !! "login_time" = Some (Moment (naive t0)) ∧
    st' !! "last_activity" = Some (Moment (naive (t0 + 3))) ∧
    st' !! "professeur_id" = Some (Atom (AInt 7)) ∧
    st' !! "professeur_name" = Some (Atom (AStr "Professeur Test")) ∧
    (∀ key, key ∉ session_fields "professeur" →
            st' !! key = student_leftover !! key) ∧
    (∀ key, is_Some (st' !! key) ↔
            key ∈ session_fields "professeur" ∨
            is_Some (student_leftover !! key)).
Proof.
  apply (initialize_session_merges bob_identity t0 (t0 + 3) student_leftover
           (AStr "professeur") (AInt 7) (AStr "bob")); reflexivity.
Defined.

Lemma logout_discards_everything_witness :
  logout bob_session = (∅, Ok tt) ∧
  logout ∅ = (∅, Ok tt) ∧
  logout (logout bob_session).1 = logout bob_session ∧
  ∀ timeout now,
    check_session_timeout parse_isoformat timeout now (logout bob_session).1
      = (∅, Ok true).
Proof.
  apply (logout_discards_everything parse_isoformat bob_session).
  right. exists bob_identity. reflexivity.
Defined.

Lemma update_activity_frame_witness :
  ∃ st', update_activity (t0 + 90 * minute) bob_session = (st', Ok tt) ∧
         st' !! "last_activity" = Some (Moment (naive (t0 + 90 * minute))) ∧
         ∀ key, key ≠ "last_activity" → st' !! key = bob_session !! key.
Proof.
  apply (update_activity_frame parse_isoformat bob_session (t0 + 90 * minute)).
  reflexivity.
Defined.

Lemma last_activity_not_before_login_witness :
  activity_not_before_login (run parse_isoformat working_day ∅).
Proof.
  apply (last_activity_not_before_login parse_isoformat working_day ∅).
  - by vm_compute.
  - apply (bool_decide_unpack _). by vm_compute.
Defined.

Lemma check_session_timeout_iso_string_witness :
  (check_session_timeout parse_isoformat 60 (t0 + 61 * minute)
     (<["last_activity" := Atom (AStr "2024-03-01T12:30:15.250000")]>
        bob_session)).2 =
  (check_session_timeout parse_isoformat 60 (t0 + 61 * minute)
     (<["last_activity" := Moment (naive t0)]> bob_session)).2.
Proof.
  apply (check_session_timeout_iso_string parse_isoformat bob_session
           "2024-03-01T12:30:15.250000" (naive t0) 60 (t0 + 61 * minute)).
  by vm_compute.
Defined.

(** * Properties of the rest of the code *)

(** ** connection.py *)

(** Case analysis on the calls that raise in a run. *)
Ltac run_cases raises :=
  destruct (raises Connect) eqn:Hconnect, (raises Execute) eqn:Hexecute,
    (raises Fetchall) eqn:Hfetchall, (raises Commit) eqn:Hcommit,
    (raises Rollback) eqn:Hrollback, (raises Close) eqn:Hclose.

(** Closes a goal that computation decides. *)
Ltac by_computation := apply (bool_decide_unpack _); by vm_compute.

(** X1. A run of [execute_query] that opens a connection closes it, once and
    as its last call; a run whose [connect] fails makes no other call. *)
Theorem execute_query_closes_connection {R} raises (stmt : statement R) fetch :
  (raises Connect = true →
   (execute_query_calls raises stmt fetch).1 = [Connect]) ∧
  (raises Connect = false →
   ∃ middle,
     (execute_query_calls raises stmt fetch).1 = Connect :: middle ++ [Close] ∧
     (Close ∉ middle) ∧ (Connect ∉ middle)).
Proof.
  split; intros Hconnect; unfold execute_query_calls; rewrite Hconnect;
    [done|].
  destruct (query_body raises stmt fetch) as [body_calls value] eqn:Hbody.
  exists (body_calls ++ match value with Some _ => [] | None => [Rollback] end).
  split; [by destruct value; rewrite <- ?(assoc_L (++))|].
  unfold query_body in Hbody.
  repeat case_match; simplify_eq; split; by_computation.
Qed.

(** X2. A run that has a connection rolls back exactly when it has not
    committed; it never does both.  No commit is tried once [execute] or
    [fetchall] raised, and the value of the statement is returned by
    committed runs only. *)
Theorem execute_query_commit_or_rollback {R} raises (stmt : statement R) fetch :
  raises Connect = false →
  let calls := (execute_query_calls raises stmt fetch).1 in
  let committed := Commit ∈ calls ∧ raises Commit = false in
  (Rollback ∈ calls ↔ ¬ committed) ∧
  (raises Execute = true → Commit ∉ calls) ∧
  (Fetchall ∈ calls → raises Fetchall = true → Commit ∉ calls) ∧
  (¬ committed →
   (execute_query_calls raises stmt fetch).2 = Ok (fallback fetch) ∨
   (execute_query_calls raises stmt fetch).2 = Raise DatabaseError).
Proof.
  intros Hopen. unfold execute_query_calls, query_body. rewrite Hopen.
  run_cases raises; destruct fetch, (stmt_rows stmt); simpl;
    simplify_eq; split_and!; try split; try by_computation;
    try (intros []; by_computation); try (intros; by_computation);
    try (intros; exfalso; by_computation); auto.
  all: try (intros Hn; exfalso; apply Hn; split; [by_computation|done]).
Qed.

(** X3. When none of the calls made raises, [execute_query] returns the
    value of the statement: its rows when rows are asked for and it has a
    result set, its row count otherwise, also when rows were asked for.
    When a call raises it returns the empty value for the mode, or lets an
    exception out; an exception comes out only of a run whose [rollback] or
    [close] raises. *)
Theorem execute_query_outcome {R} raises (stmt : statement R) fetch :
  let run := execute_query_calls raises stmt fetch in
  (existsb raises run.1 = false → run.2 = Ok (statement_value stmt fetch)) ∧
  (existsb raises run.1 = true →
   run.2 = Ok (fallback fetch) ∨ run.2 = Raise DatabaseError) ∧
  (∀ e, run.2 = Raise e →
        raises Connect = false ∧
        (raises Rollback = true ∨ raises Close = true)) ∧
  (fetch = true → stmt_rows stmt = None → existsb raises run.1 = false →
   run.2 = Ok (Rowcount (stmt_rowcount stmt))).
Proof.
  unfold execute_query_calls, query_body, statement_value.
  run_cases raises; destruct fetch, (stmt_rows stmt); simpl;
    rewrite ?Hconnect, ?Hexecute, ?Hfetchall, ?Hcommit, ?Hrollback, ?Hclose;
    simpl;
    split_and!; intros; simplify_eq; auto.
Qed.

(** X4. [load_dataframe] hands over the value of the statement when no call
    made raises, and the empty list as soon as one does: rows that were
    fetched and committed are dropped when [close] raises.  For a statement
    without result set the value handed over is its row count. *)
Theorem load_dataframe_outcome {R} raises (stmt : statement R) :
  load_dataframe raises stmt =
    (if existsb raises (execute_query_calls raises stmt true).1
     then Rows [] else statement_value stmt true) ∧
  (raises Connect = false → raises Close = true →
   load_dataframe raises stmt = Rows []).
Proof.
  unfold load_dataframe, execute_query_calls, query_body, statement_value.
  run_cases raises; destruct (stmt_rows stmt); simpl;
    rewrite ?Hconnect, ?Hexecute, ?Hfetchall, ?Hcommit, ?Hrollback, ?Hclose;
    simpl;
    split; intros; simplify_eq; auto.
Qed.

(** X5. The server of the first model stands for the runs that close their
    connection without fault: on a statement with a result set, asked for
    rows, the run returns what [execute_query] returns on the server that
    [server_of] names. *)
Theorem execute_query_refines {R} raises table (q : list users_row → list R)
    rowcount :
  raises Close = false →
  (execute_query_calls raises (Statement (Some (q table)) rowcount) true).2 =
    Rows <$> execute_query (Database (server_of raises) table) q.
Proof.
  intros Hclose.
  unfold execute_query_calls, query_body, execute_query, get_connection,
    server_of.
  rewrite Hclose.
  destruct (raises Connect), (raises Execute), (raises Fetchall),
    (raises Commit), (raises Rollback); reflexivity.
Qed.

(** ** auth.py: the directory *)

Lemma authenticate_inv db username password identity :
  authenticate db username password = Some identity →
  db_server db = Answering ∧
  password ≠ "" ∧
  ∃ u, u ∈ db_users db ∧ u_is_active u = true ∧ u_username u = username ∧
       identity = identity_of u.
Proof.
  intros Hauth.
  destruct (decide (db_server db = Answering)) as [Hs|Hs];
    [|by rewrite authenticate_fault in Hauth].
  rewrite (authenticate_answering _ _ _ Hs) in Hauth.
  destruct (filter _ (db_users db)) as [|u rest] eqn:Hfilter; [done|].
  case_bool_decide as Hpw; [|done].
  assert (u ∈ filter (λ u, u_username u = username ∧ u_is_active u = true)
                     (db_users db)) as Hsel
    by (rewrite Hfilter; left).
  apply list_elem_of_filter in Hsel as [[Hname Hact] Hin].
  split_and!; [done..|]. exists u. by simplify_eq.
Qed.

(** X6. [authenticate] never invents an identity: what it returns is the
    dictionary of a row of the table that is active and carries exactly the
    submitted user name, and it returns one only for a non-empty password
    and a server that answers. *)
Theorem authenticate_sound db username password identity :
  authenticate db username password = Some identity →
  db_server db = Answering ∧
  password ≠ "" ∧
  ∃ u, u ∈ db_users db ∧ u_is_active u = true ∧ u_username u = username ∧
       identity = identity_of u.
Proof. apply authenticate_inv. Qed.

Lemma identity_of_slots u :
  identity_of u !! "role" = Some (AStr (u_role u)) ∧
  identity_of u !! "linked_id" =
    Some (from_option AInt ANone (u_linked_id u)) ∧
  identity_of u !! "username" = Some (AStr (u_username u)) ∧
  identity_of u !! "display_name" = Some (AStr (display_name_of u)) ∧
  identity_of u !! "linked_entity_id" = None ∧
  identity_of u ≠ ∅.
Proof.
  by split_and!.
Qed.

(** The store that [initialize_session] leaves, for every identity. *)
Lemma initialize_session_store user_data t_login t_activity st :
  (initialize_session user_data t_login t_activity st).1 =
    let base := session_base user_data t_login t_activity st in
    match user_data !! "role", user_data !! "linked_id" with
    | Some role, Some linked_id =>
        let with_id := <[format_atom role +:+ "_id" := Atom linked_id]> base in
        match user_data !! "username" with
        | Some username =>
            <[format_atom role +:+ "_name" :=
                Atom (default username (user_data !! "display_name"))]> with_id
        | None => with_id
        end
    | _, _ => base
    end.
Proof.
  unfold initialize_session, session_base. cbn [session_update].
  session_unfold. simpl.
  destruct (user_data !! "role") as [role|]; simpl; [|done].
  destruct (user_data !! "linked_id") as [linked_id|]; simpl; [|done].
  by destruct (user_data !! "username") as [username|].
Qed.

Lemma logged_in_eq u t_login t_activity st :
  initialize_session (identity_of u) t_login t_activity st =
    (logged_in u t_login t_activity st, Ok tt) ∧
  logged_in u t_login t_activity st =
    <[u_role u +:+ "_name" := Atom (AStr (display_name_of u))]>
      (<[u_role u +:+ "_id" := Atom (from_option AInt ANone (u_linked_id u))]>
         (session_base (identity_of u) t_login t_activity st)).
Proof.
  unfold logged_in.
  by rewrite (initialize_session_ok (identity_of u) t_login t_activity st
                (AStr (u_role u)) (from_option AInt ANone (u_linked_id u))
                (AStr (u_username u))).
Qed.

Lemma logged_in_user u t_login t_activity st :
  logged_in u t_login t_activity st !! "user" = Some (Dict (identity_of u)).
Proof.
  unfold logged_in. rewrite initialize_session_fixed by done.
  apply session_base_slots.
Qed.

(** ** auth.py: the session *)

Section MoreSessionProperties.

Variable fromisoformat : string → option datetime.

Implicit Types st : gmap string value.

Lemma elapsed_exceeds_true timeout now d :
  elapsed_exceeds timeout now d = Ok true ↔
  timedelta_in_range timeout ∧
  ∃ t, d = naive t ∧ timeout * minute < now - t.
Proof.
  unfold elapsed_exceeds, timedelta_minutes, timedelta_in_range.
  destruct d as [t [off|]]; simpl.
  - split.
    + case_bool_decide; simpl; [|done]. done.
    + by intros (_ & t' & ? & _).
  - case_bool_decide as Hrange; simpl.
    + unfold mret, result_ret. split.
      * intros [= Hlt%bool_decide_eq_true]. split; [done|].
        exists t. split; [done|]. unfold minute. lia.
      * intros (_ & t' & [= <-] & Hlt). f_equal.
        apply bool_decide_eq_true. unfold minute in Hlt. lia.
    + split; [done|]. by intros [? _].
Qed.

(** The timestamp that [check_session_timeout] compares with the clock. *)
Lemma check_true_inv timeout now st :
  check_session_timeout fromisoformat timeout now st = (st, Ok true) ↔
  st !! "last_activity" = None ∨
  ∃ d, (st !! "last_activity" = Some (Moment d) ∨
        ∃ s, st !! "last_activity" = Some (Atom (AStr s)) ∧
             fromisoformat s = Some d) ∧
       elapsed_exceeds timeout now d = Ok true.
Proof.
  destruct (st !! "last_activity") as [[[| | |s]|d|u]|] eqn:Hla.
  4: { rewrite (check_string fromisoformat timeout now st s Hla).
       destruct (fromisoformat s) as [d|] eqn:Hread.
       - split.
         + intros [= Hexceeds]. right. exists d. split; [right; eauto|done].
         + intros [? | (d' & [? | (s' & ? & ?)] & ?)]; simplify_eq. congruence.
       - split; [done|].
         intros [? | (d' & [? | (s' & ? & ?)] & ?)]; simplify_eq. }
  4: { rewrite (check_moment fromisoformat timeout now st d Hla).
       split.
       - intros [= Hexceeds]. right. exists d. split; [by left|done].
       - intros [? | (d' & [? | (s' & ? & ?)] & ?)]; simplify_eq. congruence. }
  5: { split; [intros _; by left|intros _; by apply check_absent]. }
  all: split; [|intros [? | (d' & [? | (s' & ? & ?)] & ?)]; simplify_eq].
  all: unfold check_session_timeout; session_unfold; session_run Hla.
  all: by destruct (timedelta_minutes timeout).
Qed.

(** X7. [check_session_timeout] writes nothing: the store it leaves is the
    store it found, whatever the slot holds and also when it raises. *)
Theorem check_session_timeout_reads_only timeout now st :
  ∃ outcome,
    check_session_timeout fromisoformat timeout now st = (st, outcome).
Proof.
  pose proof (check_reads_only fromisoformat timeout now st) as Hstore.
  destruct (check_session_timeout fromisoformat timeout now st)
    as [st' outcome].
  simpl in Hstore. subst st'. by exists outcome.
Qed.

(** X8. Expiry is stable: a session reported expired stays expired at every
    later clock reading, and under every smaller timeout that [timedelta]
    can hold, as long as nothing writes the store. *)
Theorem expired_stays_expired timeout now st :
  check_session_timeout fromisoformat timeout now st = (st, Ok true) →
  (∀ later, now ≤ later →
     check_session_timeout fromisoformat timeout later st = (st, Ok true)) ∧
  (∀ shorter, shorter ≤ timeout → timedelta_in_range shorter →
     check_session_timeout fromisoformat shorter now st = (st, Ok true)).
Proof.
  intros Hexpired. apply check_true_inv in Hexpired.
  split.
  - intros later Hlater. apply check_true_inv.
    destruct Hexpired as [Hnone | (d & Hslot & Hexceeds)]; [by left|].
    right. exists d. split; [done|].
    apply elapsed_exceeds_true in Hexceeds as (Hrange & t & -> & Hlt).
    apply elapsed_exceeds_true. split; [done|]. exists t. split; [done|lia].
  - intros shorter Hshorter Hrange'. apply check_true_inv.
    destruct Hexpired as [Hnone | (d & Hslot & Hexceeds)]; [by left|].
    right. exists d. split; [done|].
    apply elapsed_exceeds_true in Hexceeds as (Hrange & t & -> & Hlt).
    apply elapsed_exceeds_true. split; [done|]. exists t. split; [done|].
    unfold minute in *. lia.
Qed.

(** X9. What [check_session_timeout] raises, and in which order it finds
    out: a string that [fromisoformat] refuses is a [ValueError] for every
    timeout; otherwise a timeout outside the range of [timedelta] is an
    [OverflowError] whatever else the slot holds; otherwise an aware
    timestamp and a slot that holds no timestamp are a [TypeError]. *)
Theorem check_session_timeout_errors timeout now st :
  (∀ s, st !! "last_activity" = Some (Atom (AStr s)) →
        fromisoformat s = None →
        check_session_timeout fromisoformat timeout now st
          = (st, Raise ValueError)) ∧
  (∀ v, st !! "last_activity" = Some v →
        (∀ s, v = Atom (AStr s) → is_Some (fromisoformat s)) →
        ¬ timedelta_in_range timeout →
        check_session_timeout fromisoformat timeout now st
          = (st, Raise OverflowError)) ∧
  (∀ v, st !! "last_activity" = Some v →
        timedelta_in_range timeout →
        (∀ t, v ≠ Moment (naive t)) →
        (∀ s, v = Atom (AStr s) →
              ∃ t offset, fromisoformat s = Some (Datetime t (Some offset))) →
        check_session_timeout fromisoformat timeout now st
          = (st, Raise TypeError)).
Proof.
  split_and!.
  - intros s Hla Hread. rewrite (check_string _ _ _ _ _ Hla). by rewrite Hread.
  - intros v Hla Hreads Hrange.
    assert (∀ d, elapsed_exceeds timeout now d = Raise OverflowError) as Hover.
    { intros d. unfold elapsed_exceeds, timedelta_minutes.
      by rewrite bool_decide_eq_false_2. }
    destruct v as [[| | |s]|d|u].
    4: { rewrite (check_string _ _ _ _ _ Hla).
         destruct (Hreads s eq_refl) as [d ->]. by rewrite Hover. }
    4: { rewrite (check_moment _ _ _ _ _ Hla). by rewrite Hover. }
    all: unfold check_session_timeout, timedelta_minutes; session_unfold;
      session_run Hla; by rewrite bool_decide_eq_false_2.
  - intros v Hla Hrange Hnaive Haware.
    assert (∀ t offset,
              elapsed_exceeds timeout now (Datetime t (Some offset))
              = Raise TypeError) as Htype.
    { intros t offset. unfold elapsed_exceeds, timedelta_minutes.
      by rewrite bool_decide_eq_true_2. }
    destruct v as [[| | |s]|[t [offset|]]|u].
    4: { rewrite (check_string _ _ _ _ _ Hla).
         destruct (Haware s eq_refl) as (t & offset & ->). by rewrite Htype. }
    4: { rewrite (check_moment _ _ _ _ _ Hla). by rewrite Htype. }
    4: { by destruct (Hnaive t). }
    all: unfold check_session_timeout, timedelta_minutes; session_unfold;
      session_run Hla; by rewrite bool_decide_eq_true_2.
Qed.

(** X10. A touch restarts the idle time: on an authenticated session,
    whatever the [last_activity] slot held before (also a string that cannot
    be read), the check made after [update_activity] measures the time from
    the touch, and the session is not expired while at most [timeout] minutes
    have passed since. *)
Theorem touch_restarts_idle_time st touched timeout now :
  is_authenticated st = true →
  timedelta_in_range timeout →
  let st' := (update_activity touched st).1 in
  check_session_timeout fromisoformat timeout now st' =
    (st', Ok (bool_decide (timeout * minute < now - touched))) ∧
  (now - touched ≤ timeout * minute →
   check_session_timeout fromisoformat timeout now st' = (st', Ok false)).
Proof.
  intros Hauth Hrange. rewrite update_activity_eq, Hauth. simpl.
  assert (check_session_timeout fromisoformat timeout now
            (<["last_activity" := Moment (naive touched)]> st) =
          (<["last_activity" := Moment (naive touched)]> st,
           Ok (bool_decide (timeout * minute < now - touched)))) as Hcheck.
  { rewrite (check_moment _ timeout now _ (naive touched))
      by apply lookup_insert_eq.
    by rewrite elapsed_exceeds_naive. }
  split; [done|]. intros Hshort. rewrite Hcheck.
  by rewrite bool_decide_eq_false_2 by lia.
Qed.

(** X11. The idle time of a new session runs from the second clock reading
    of [initialize_session], whatever the store held and whether or not the
    identity is complete. *)
Theorem new_session_idle_time user_data t_login t_activity st timeout now :
  timedelta_in_range timeout →
  let st' := (initialize_session user_data t_login t_activity st).1 in
  check_session_timeout fromisoformat timeout now st' =
    (st', Ok (bool_decide (timeout * minute < now - t_activity))).
Proof.
  intros Hrange st'.
  rewrite (check_moment _ timeout now st' (naive t_activity)).
  - by rewrite elapsed_exceeds_naive.
  - unfold st'. rewrite initialize_session_fixed by done.
    apply session_base_slots.
Qed.

(** X12. [logout] is all or nothing: it empties the store, or, when the
    [user] slot holds something that is not a dictionary, it raises
    [AttributeError] before the first deletion and the store, with its
    [authenticated] flag, stays as it was. *)
Theorem logout_all_or_nothing st :
  (user_slot_typed st → logout st = (∅, Ok tt)) ∧
  (¬ user_slot_typed st →
   logout st = (st, Raise AttributeError) ∧
   is_authenticated (logout st).1 = is_authenticated st).
Proof.
  split; [apply logout_clears|].
  intros Huntyped.
  destruct (st !! "user") as [v|] eqn:Huser;
    [|destruct Huntyped; by left].
  rewrite (logout_untyped_user st v Huser); [done|].
  intros d ->. apply Huntyped. right. by exists d.
Qed.

(** X13. A logout after [initialize_session] always succeeds: whatever the
    store held before the login, a badly typed [user] slot included, and
    whatever the identity, the store is empty afterwards. *)
Theorem logout_after_login user_data t_login t_activity st :
  logout (initialize_session user_data t_login t_activity st).1 = (∅, Ok tt).
Proof.
  apply logout_clears. right. exists user_data.
  rewrite initialize_session_fixed by done.
  apply session_base_slots.
Qed.

(** X14. How [initialize_session] fails: without ["role"] it raises
    [KeyError] after the [update] call, without ["linked_id"] likewise,
    without ["username"] after it stored the role-keyed id.  In every case,
    and for every identity, the store it leaves is flagged authenticated and
    carries the identity and both timestamps. *)
Theorem initialize_session_failure user_data t_login t_activity st :
  (user_data !! "role" = None →
   initialize_session user_data t_login t_activity st =
     (session_base user_data t_login t_activity st, Raise (KeyError "role"))) ∧
  (is_Some (user_data !! "role") → user_data !! "linked_id" = None →
   initialize_session user_data t_login t_activity st =
     (session_base user_data t_login t_activity st,
      Raise (KeyError "linked_id"))) ∧
  (∀ role linked_id,
     user_data !! "role" = Some role →
     user_data !! "linked_id" = Some linked_id →
     user_data !! "username" = None →
     initialize_session user_data t_login t_activity st =
       (<[format_atom role +:+ "_id" := Atom linked_id]>
          (session_base user_data t_login t_activity st),
        Raise (KeyError "username"))) ∧
  is_authenticated (initialize_session user_data t_login t_activity st).1
    = true ∧
  (initialize_session user_data t_login t_activity st).1 !! "user"
    = Some (Dict user_data).
Proof.
  split_and!.
  - intros Hrole. unfold initialize_session, session_base.
    cbn [session_update]. session_unfold. simpl. by rewrite Hrole.
  - intros [role Hrole] Hlinked. unfold initialize_session, session_base.
    cbn [session_update]. session_unfold. simpl. rewrite Hrole. simpl.
    by rewrite Hlinked.
  - intros role linked_id Hrole Hlinked Hname.
    unfold initialize_session, session_base.
    cbn [session_update]. session_unfold. simpl. rewrite Hrole. simpl.
    rewrite Hlinked. simpl. by rewrite Hname.
  - unfold is_authenticated. rewrite initialize_session_fixed by done.
    by destruct (session_base_slots user_data t_login t_activity st) as [-> _].
  - rewrite initialize_session_fixed by done.
    apply session_base_slots.
Qed.

(** X15. A login over a login of the same role leaves nothing of the first:
    when the second identity is complete and the first carries no role or a
    role that formats to the same text, the store is the one the second
    login builds on the store before the first. *)
Theorem relogin_same_role_overwrites first second t1 t2 t3 t4 st
    role linked_id username :
  second !! "role" = Some role →
  second !! "linked_id" = Some linked_id →
  second !! "username" = Some username →
  (∀ role1, first !! "role" = Some role1 →
            format_atom role1 = format_atom role) →
  initialize_session second t3 t4 (initialize_session first t1 t2 st).1 =
    initialize_session second t3 t4 st.
Proof.
  intros Hrole Hlinked Hname Hsame.
  rewrite !(initialize_session_ok second t3 t4 _ _ _ _ Hrole Hlinked Hname).
  f_equal. rewrite initialize_session_store. cbv zeta.
  destruct (first !! "role") as [role1|]; [rewrite (Hsame role1 eq_refl)|];
    destruct (first !! "linked_id") as [linked1|];
    try destruct (first !! "username") as [username1|];
    apply map_eq; intros key; unfold session_base;
    rewrite !lookup_insert; repeat case_decide; congruence.
Qed.

(** X16. What [authenticate] returns can always be given to
    [initialize_session]: the call raises nothing, stores the returned
    dictionary under [user] and fills the two role-keyed slots with the
    linked id of the row and with the display name the query computed. *)
Theorem login_builds_session db username password identity
    t_login t_activity st :
  authenticate db username password = Some identity →
  ∃ u st',
    u ∈ db_users db ∧ identity = identity_of u ∧
    initialize_session identity t_login t_activity st = (st', Ok tt) ∧
    is_authenticated st' = true ∧
    st' !! "user" = Some (Dict identity) ∧
    st' !! (u_role u +:+ "_id") =
      Some (Atom (from_option AInt ANone (u_linked_id u))) ∧
    st' !! (u_role u +:+ "_name") = Some (Atom (AStr (display_name_of u))).
Proof.
  intros (_ & _ & u & Hin & _ & _ & ->)%authenticate_inv.
  destruct (logged_in_eq u t_login t_activity st) as [Hrun Hstore].
  exists u, (logged_in u t_login t_activity st).
  split_and!; try done.
  - unfold is_authenticated, logged_in.
    rewrite initialize_session_fixed by done.
    by destruct (session_base_slots (identity_of u) t_login t_activity st)
      as [-> _].
  - apply logged_in_user.
  - rewrite Hstore.
    rewrite lookup_insert_ne by apply not_eq_sym, role_keys_distinct.
    apply lookup_insert_eq.
  - rewrite Hstore. apply lookup_insert_eq.
Qed.

(** ** auth.py: the login form *)

Lemma login_submit_success db username password t_login t_activity st u :
  username ≠ "" →
  authenticate db username password = Some (identity_of u) →
  login_submit db username password t_login t_activity st =
    (logged_in u t_login t_activity st,
     Ok [UiSuccess ("Bienvenue " +:+ display_name_of u +:+ "!"); UiRerun]).
Proof.
  intros Hname Hauth.
  destruct (authenticate_inv _ _ _ _ Hauth) as (_ & Hpw & _).
  unfold login_submit.
  rewrite (proj2 (String.eqb_neq username "") Hname).
  rewrite (proj2 (String.eqb_neq password "") Hpw).
  rewrite Hauth. simpl.
  rewrite bool_decide_eq_false_2 by apply identity_of_slots. simpl.
  unfold mbind, session_bind.
  by destruct (logged_in_eq u t_login t_activity st) as [-> _].
Qed.

(** X17. The handler of the login form.  With an empty user name or an empty
    password it shows the "fill all fields" error and leaves the store alone,
    whatever the directory holds.  Otherwise, when [authenticate] returns
    nothing, it shows the credential error and leaves the store alone; that
    is also what a visitor sees when the directory cannot be reached.  When
    [authenticate] returns the identity of a row, the session of that row is
    stored, the welcome carries the display name, and the script restarts. *)
Theorem login_submit_outcome db username password t_login t_activity st :
  (username = "" ∨ password = "" →
   login_submit db username password t_login t_activity st =
     (st, Ok [UiError "Veuillez remplir tous les champs"])) ∧
  (username ≠ "" → password ≠ "" →
   authenticate db username password = None →
   login_submit db username password t_login t_activity st =
     (st, Ok [UiError "Nom d'utilisateur ou mot de passe incorrect"])) ∧
  (username ≠ "" → password ≠ "" → db_server db ≠ Answering →
   login_submit db username password t_login t_activity st =
     (st, Ok [UiError "Nom d'utilisateur ou mot de passe incorrect"])) ∧
  (∀ u, username ≠ "" →
        authenticate db username password = Some (identity_of u) →
        login_submit db username password t_login t_activity st =
          (logged_in u t_login t_activity st,
           Ok [UiSuccess ("Bienvenue " +:+ display_name_of u +:+ "!");
               UiRerun])).
Proof.
  assert (∀ s : string, s ≠ "" → String.eqb s "" = false) as Hfilled.
  { intros s Hs. by apply String.eqb_neq. }
  unfold login_submit. split_and!.
  - intros [-> | ->]; [done|]. by rewrite orb_true_r.
  - intros Hname Hpw Hauth. by rewrite !Hfilled, Hauth.
  - intros Hname Hpw Hserver.
    by rewrite !Hfilled, authenticate_fault.
  - intros u Hname Hauth. by apply login_submit_success.
Qed.

(** ** main.py *)

Lemma is_authenticated_inv st :
  is_authenticated st = true →
  ∃ v, st !! "authenticated" = Some v ∧ truthy v = true.
Proof.
  unfold is_authenticated. destruct (st !! "authenticated") as [v|]; [|done].
  intros Hv. by exists v.
Qed.

Lemma main_anonymous t_check t_touch st :
  is_authenticated st = false →
  main fromisoformat t_check t_touch st = (with_flag st, Ok LoginInterface).
Proof.
  unfold is_authenticated, main, with_flag, session_getattr. session_unfold.
  destruct (st !! "authenticated") as [v|] eqn:Hflag; session_run Hflag.
  - intros Hv. rewrite Hv. simpl. session_run Hflag. by rewrite Hv.
  - intros _. by repeat (rewrite lookup_insert_eq; simpl).
Qed.

Lemma main_authenticated t_check t_touch st :
  is_authenticated st = true →
  main fromisoformat t_check t_touch st =
    match (check_session_timeout fromisoformat 60 t_check st).2 with
    | Ok true =>
        match logout st with
        | (st', Ok _) => (st', Ok Restarted)
        | (st', Raise e) => (st', Raise e)
        end
    | Ok false =>
        (<["last_activity" := Moment (naive t_touch)]> st, Ok MainInterface)
    | Raise e => (st, Raise e)
    end.
Proof.
  intros Hauth.
  destruct (is_authenticated_inv st Hauth) as (v & Hflag & Hv).
  pose proof (check_reads_only fromisoformat 60 t_check st) as Hstore.
  pose proof (update_activity_eq t_touch st) as Htouch.
  rewrite Hauth in Htouch.
  unfold main, session_getattr. session_unfold. session_run Hflag.
  rewrite Hv. simpl.
  destruct (check_session_timeout fromisoformat 60 t_check st)
    as [st' [[|]|e]]; simpl in *; subst st'; [| |done].
  - by destruct (logout st) as [st' [[]|e]].
  - rewrite Htouch. simpl.
    rewrite lookup_insert_ne by done. rewrite Hflag. by rewrite Hv.
Qed.

Lemma check_within_hour t_check st last :
  st !! "last_activity" = Some (Moment (naive last)) →
  check_session_timeout fromisoformat 60 t_check st =
    (st, Ok (bool_decide (60 * minute < t_check - last))).
Proof.
  intros Hla. rewrite (check_moment _ _ _ _ _ Hla).
  rewrite elapsed_exceeds_naive; [done|].
  unfold timedelta_in_range. by vm_compute.
Qed.

(** X18. A run of [main] ends on the main interface exactly when the session
    is flagged authenticated and [check_session_timeout], with its 60
    minutes, answers [False]; the run then records its touch in
    [last_activity] and changes nothing else. *)
Theorem main_interface_guarded t_check t_touch st st' :
  main fromisoformat t_check t_touch st = (st', Ok MainInterface) ↔
  is_authenticated st = true ∧
  check_session_timeout fromisoformat 60 t_check st = (st, Ok false) ∧
  st' = <["last_activity" := Moment (naive t_touch)]> st.
Proof.
  pose proof (check_reads_only fromisoformat 60 t_check st) as Hstore.
  destruct (is_authenticated st) eqn:Hauth.
  - rewrite main_authenticated by done.
    destruct (check_session_timeout fromisoformat 60 t_check st)
      as [st1 [[|]|e]]; simpl in *; subst st1.
    + split; [|by intros (_ & [=] & _)].
      by destruct (logout st) as [st1 [[]|e]].
    + split; [by intros [= <-]|by intros (_ & _ & ->)].
    + split; [done|by intros (_ & [=] & _)].
  - rewrite main_anonymous by done.
    split; [done|by intros ([=] & _)].
Qed.

(** X19. A run of [main] ends on the login interface exactly when the
    session is not flagged authenticated; it raises nothing then, adds the
    flag [False] when the flag is missing, and reads or writes no other
    slot, whatever [last_activity] holds. *)
Theorem login_interface_when_anonymous t_check t_touch st st' :
  main fromisoformat t_check t_touch st = (st', Ok LoginInterface) ↔
  is_authenticated st = false ∧ st' = with_flag st.
Proof.
  pose proof (check_reads_only fromisoformat 60 t_check st) as Hstore.
  destruct (is_authenticated st) eqn:Hauth.
  - rewrite main_authenticated by done.
    split; [|by intros [[=] _]].
    destruct (check_session_timeout fromisoformat 60 t_check st)
      as [st1 [[|]|e]]; simpl in *; subst st1; [|done..].
    by destruct (logout st) as [st1 [[]|e]].
  - rewrite main_anonymous by done.
    split; [by intros [= <-]|by intros [_ ->]].
Qed.

(** X20. An authenticated session that [check_session_timeout] reports
    expired is logged out by the run of [main]: the store is emptied and the
    script restarts, and the next run, whenever it comes, ends on the login
    interface with nothing in the store but the flag [False].  When the
    [user] slot holds no dictionary the logout fails instead: the run raises
    [AttributeError] and the store stays as it was. *)
Theorem expired_session_is_logged_out t_check t_touch st :
  is_authenticated st = true →
  check_session_timeout fromisoformat 60 t_check st = (st, Ok true) →
  (user_slot_typed st →
   main fromisoformat t_check t_touch st = (∅, Ok Restarted) ∧
   ∀ t_check' t_touch',
     main fromisoformat t_check' t_touch' ∅ =
       ({[ "authenticated" := Atom (ABool false) ]}, Ok LoginInterface)) ∧
  (¬ user_slot_typed st →
   main fromisoformat t_check t_touch st = (st, Raise AttributeError)).
Proof.
  intros Hauth Hexpired.
  rewrite main_authenticated, Hexpired by done. simpl. split.
  - intros Huser. rewrite logout_clears by done. split; [done|].
    intros t_check' t_touch'. by rewrite main_anonymous.
  - intros Huntyped.
    destruct (st !! "user") as [v|] eqn:Huser;
      [|destruct Huntyped; by left].
    rewrite (logout_untyped_user st v Huser); [done|].
    intros d ->. apply Huntyped. right. by exists d.
Qed.

(** X21. A session lives as long as it is visited in time: when every run
    of [main] makes its check at most 60 minutes after the activity last
    recorded, every run ends on the main interface, however many runs there
    are and however long ago the login was; [login_time] is kept and never
    consulted. *)
Theorem session_kept_alive clock : ∀ st last,
  is_authenticated st = true →
  st !! "last_activity" = Some (Moment (naive last)) →
  visited_in_time last clock →
  ∃ st', main_runs fromisoformat clock st =
           (st', Ok (replicate (length clock) MainInterface)) ∧
         is_authenticated st' = true ∧
         st' !! "login_time" = st !! "login_time".
Proof.
  induction clock as [|[t_check t_touch] rest IH]; intros st last Hauth Hla Hvisit.
  - by exists st.
  - destruct Hvisit as [Hgap Hrest].
    cbn [main_runs]. rewrite main_authenticated by done.
    rewrite (check_within_hour _ _ last) by done. simpl.
    rewrite bool_decide_eq_false_2 by lia.
    destruct (IH (<["last_activity" := Moment (naive t_touch)]> st) t_touch)
      as (st' & Hruns & Hauth' & Hlogin); [|apply lookup_insert_eq|done|].
    { unfold is_authenticated in *. by rewrite lookup_insert_ne. }
    exists st'. rewrite Hruns. split_and!; [done..|].
    rewrite Hlogin. by apply lookup_insert_ne.
Qed.

(** X25. A login that succeeds leads to the main interface: the handler of
    the form stores the session and restarts the script, and the run of
    [main] that follows, when its check comes at most 60 minutes after the
    login, ends on the main interface and records its touch. *)
Theorem login_then_main db username password t_login t_activity st
    t_check t_touch :
  username ≠ "" →
  is_Some (authenticate db username password) →
  t_check - t_activity ≤ 60 * minute →
  ∃ st1 events,
    login_submit db username password t_login t_activity st
      = (st1, Ok events) ∧
    UiRerun ∈ events ∧
    main fromisoformat t_check t_touch st1 =
      (<["last_activity" := Moment (naive t_touch)]> st1, Ok MainInterface).
Proof.
  intros Hname [identity Hauth] Hgap.
  destruct (authenticate_inv _ _ _ _ Hauth) as (_ & _ & u & _ & _ & _ & ->).
  eexists _, _. split; [by apply login_submit_success|].
  split; [by_computation|].
  assert (is_authenticated (logged_in u t_login t_activity st) = true) as Hflag.
  { unfold is_authenticated, logged_in.
    rewrite initialize_session_fixed by done.
    by destruct (session_base_slots (identity_of u) t_login t_activity st)
      as [-> _]. }
  rewrite main_authenticated by done.
  rewrite (check_within_hour _ _ t_activity).
  - simpl. by rewrite bool_decide_eq_false_2 by lia.
  - unfold logged_in. rewrite initialize_session_fixed by done.
    apply session_base_slots.
Qed.

(** ** The dashboards *)

(** X22. After the login of a row, [show_main_interface] raises nothing: it
    greets with the display name, takes the title of the row's role (the role
    itself when it has no title) and hands over to the dashboard of that
    role; with the logout button clicked it empties the store instead.  A
    role has a dashboard branch exactly when it has a title: a row with any
    other role logs in all the same and gets the unknown-role branch. *)
Theorem dashboard_after_login u t_login t_activity st :
  show_main_interface false (logged_in u t_login t_activity st) =
    (logged_in u t_login t_activity st,
     Ok (Board (MainView (AStr (display_name_of u))
                         (default (u_role u) (role_titles !! u_role u))
                         (dashboard_for (AStr (u_role u)))))) ∧
  show_main_interface true (logged_in u t_login t_activity st) =
    (∅, Ok LoggedOut) ∧
  (∀ role : string,
     dashboard_for (AStr role) = UnknownRole ↔ role_titles !! role = None).
Proof.
  pose proof (logged_in_user u t_login t_activity st) as Huser.
  split_and!.
  - unfold show_main_interface, session_getattr. session_unfold.
    by rewrite Huser.
  - unfold show_main_interface, session_getattr. session_unfold.
    rewrite Huser. simpl. unfold mbind, session_bind.
    rewrite logout_clears; [done|]. right. eauto.
  - intros role. unfold dashboard_for, role_titles.
    rewrite !lookup_insert, lookup_singleton.
    repeat case_decide; simplify_eq; done.
Qed.

(** X23. [render_professor_dashboard] asks for a login when the store has no
    [user]; after the login of a row it refuses every role but
    ["professeur"] and, for a professor, queries with the linked id of the
    row: [None] when that is NULL, never the fallback 1.  The id is the one
    in the [professeur_id] slot. *)
Theorem professor_guard_after_login u t_login t_activity st :
  (st !! "user" = None → professor_guard st = (st, Ok PleaseLogIn)) ∧
  professor_guard (logged_in u t_login t_activity st) =
    (logged_in u t_login t_activity st,
     Ok (if decide (u_role u = "professeur")
         then ProfessorId (from_option AInt ANone (u_linked_id u))
         else ProfessorsOnly)) ∧
  (u_role u = "professeur" →
   logged_in u t_login t_activity st !! "professeur_id" =
     Some (Atom (from_option AInt ANone (u_linked_id u)))).
Proof.
  split_and!.
  - intros Huser. unfold professor_guard. session_unfold. by session_run Huser.
  - pose proof (logged_in_user u t_login t_activity st) as Huser.
    unfold professor_guard, session_getattr. session_unfold.
    session_run Huser.
    destruct (identity_of_slots u) as (-> & -> & _). simpl.
    case_decide as Hrole.
    + rewrite Hrole. by rewrite bool_decide_eq_true_2.
    + rewrite bool_decide_eq_false_2; [done|]. by intros [= ?].
  - intros Hrole.
    destruct (logged_in_eq u t_login t_activity st) as [_ ->].
    rewrite Hrole.
    rewrite lookup_insert_ne by done. apply lookup_insert_eq.
Qed.

(** X24. After the login of a row the student dashboard queries with the
    linked id of the row, and the department-head dashboard with 0 whatever
    the row links to: it reads ["linked_entity_id"], a key that the
    dictionary of [authenticate] does not have. *)
Theorem dashboard_entities_after_login u t_login t_activity st :
  student_entity (logged_in u t_login t_activity st) =
    (logged_in u t_login t_activity st,
     Ok (from_option AInt ANone (u_linked_id u))) ∧
  department_entity (logged_in u t_login t_activity st) =
    (logged_in u t_login t_activity st, Ok (AInt 0)).
Proof.
  pose proof (logged_in_user u t_login t_activity st) as Huser.
  unfold student_entity, department_entity, session_getattr. session_unfold.
  rewrite Huser. simpl. unfold getitem.
  by destruct (identity_of_slots u) as (_ & -> & _ & _ & -> & _).
Qed.

End MoreSessionProperties.

(** ** Instances of the properties of the rest of the code *)

Lemma execute_query_closes_connection_witness :
  ∃ middle,
    (execute_query_calls (only Commit) alice_statement true).1
      = Connect :: middle ++ [Close] ∧
    (Close ∉ middle) ∧ (Connect ∉ middle).
Proof.
  apply (execute_query_closes_connection (only Commit) alice_statement true).
  reflexivity.
Defined.

Lemma execute_query_commit_or_rollback_witness :
  Rollback ∈ (execute_query_calls (only Fetchall) alice_statement true).1 ∧
  Commit ∉ (execute_query_calls (only Fetchall) alice_statement true).1.
Proof.
  pose proof (execute_query_commit_or_rollback (only Fetchall) alice_statement
                true eq_refl) as (Hrollback & _ & Hfetch & _).
  split.
  - apply Hrollback. intros [Hcommit _]. revert Hcommit. by_computation.
  - apply Hfetch; [by_computation|reflexivity].
Defined.

Lemma execute_query_outcome_witness :
  (execute_query_calls no_fault (Statement (R := gmap string atom) None 3) true).2
    = Ok (Rowcount 3).
Proof.
  apply (execute_query_outcome no_fault (Statement None 3) true); reflexivity.
Defined.

Lemma load_dataframe_outcome_witness :
  load_dataframe (only Close) alice_statement = Rows [].
Proof.
  apply (load_dataframe_outcome (only Close) alice_statement); reflexivity.
Defined.

Lemma execute_query_refines_witness :
  (execute_query_calls (only Execute)
     (Statement (Some (active_user_query "alice" [alice])) 1) true).2 =
    Rows <$> execute_query (Database (server_of (only Execute)) [alice])
                           (active_user_query "alice").
Proof.
  apply (execute_query_refines (only Execute) [alice]
           (active_user_query "alice") 1).
  reflexivity.
Defined.

Lemma authenticate_sound_witness :
  db_server campus = Answering ∧
  "opensesame" ≠ "" ∧
  ∃ u, u ∈ db_users campus ∧ u_is_active u = true ∧ u_username u = "bob" ∧
       bob_identity = identity_of u.
Proof.
  apply (authenticate_sound campus "bob" "opensesame" bob_identity).
  by vm_compute.
Defined.

Lemma expired_stays_expired_witness :
  check_session_timeout parse_isoformat 60 (t0 + 120 * minute) bob_session
    = (bob_session, Ok true).
Proof.
  apply (expired_stays_expired parse_isoformat 60 (t0 + 61 * minute)
           bob_session).
  - by vm_compute.
  - unfold minute. lia.
Defined.

Lemma check_session_timeout_errors_witness :
  check_session_timeout parse_isoformat 60 t0
    {[ "last_activity" := Atom (AStr "yesterday") ]}
    = ({[ "last_activity" := Atom (AStr "yesterday") ]}, Raise ValueError).
Proof.
  apply (proj1 (check_session_timeout_errors parse_isoformat 60 t0
                  {[ "last_activity" := Atom (AStr "yesterday") ]})
           "yesterday"); by vm_compute.
Defined.

Lemma touch_restarts_idle_time_witness :
  check_session_timeout parse_isoformat 60 (t0 + 130 * minute)
    (update_activity (t0 + 90 * minute) bob_session).1
    = ((update_activity (t0 + 90 * minute) bob_session).1, Ok false).
Proof.
  apply (touch_restarts_idle_time parse_isoformat bob_session
           (t0 + 90 * minute) 60 (t0 + 130 * minute)).
  - reflexivity.
  - unfold timedelta_in_range. by vm_compute.
  - unfold minute. lia.
Defined.

Lemma new_session_idle_time_witness :
  check_session_timeout parse_isoformat 60 (t0 + 30 * minute)
    (initialize_session bob_identity t0 (t0 + 3) student_leftover).1
    = ((initialize_session bob_identity t0 (t0 + 3) student_leftover).1,
       Ok (bool_decide (60 * minute < t0 + 30 * minute - (t0 + 3)))).
Proof.
  apply (new_session_idle_time parse_isoformat bob_identity t0 (t0 + 3)
           student_leftover 60 (t0 + 30 * minute)).
  unfold timedelta_in_range. by vm_compute.
Defined.

Lemma logout_all_or_nothing_witness :
  logout {[ "user" := Atom (AStr "bob");
            "authenticated" := Atom (ABool true) ]}
    = ({[ "user" := Atom (AStr "bob");
          "authenticated" := Atom (ABool true) ]}, Raise AttributeError) ∧
  is_authenticated
    (logout {[ "user" := Atom (AStr "bob");
               "authenticated" := Atom (ABool true) ]}).1
    = is_authenticated {[ "user" := Atom (AStr "bob");
                          "authenticated" := Atom (ABool true) ]}.
Proof.
  apply (logout_all_or_nothing {[ "user" := Atom (AStr "bob");
                                  "authenticated" := Atom (ABool true) ]}).
  intros [Hnone | [d Hdict]]; by vm_compute in *.
Defined.

Lemma initialize_session_failure_witness :
  initialize_session {[ "username" := AStr "bob" ]} t0 t0 ∅ =
    (session_base {[ "username" := AStr "bob" ]} t0 t0 ∅,
     Raise (KeyError "role")).
Proof.
  apply (initialize_session_failure {[ "username" := AStr "bob" ]} t0 t0 ∅).
  reflexivity.
Defined.

Lemma relogin_same_role_overwrites_witness :
  initialize_session bob_identity (t0 + minute) (t0 + minute)
    (initialize_session {[ "role" := AStr "professeur";
                           "linked_id" := AInt 9;
                           "username" := AStr "dana" ]} t0 t0 ∅).1 =
    initialize_session bob_identity (t0 + minute) (t0 + minute) ∅.
Proof.
  apply (relogin_same_role_overwrites _ bob_identity t0 t0 _ _ ∅
           (AStr "professeur") (AInt 7) (AStr "bob")); try reflexivity.
  intros role1 Hrole1. vm_compute in Hrole1. by simplify_eq.
Defined.

Lemma login_builds_session_witness :
  ∃ u st',
    u ∈ db_users campus ∧ bob_identity = identity_of u ∧
    initialize_session bob_identity t0 t0 student_leftover = (st', Ok tt) ∧
    is_authenticated st' = true ∧
    st' !! "user" = Some (Dict bob_identity) ∧
    st' !! (u_role u +:+ "_id") =
      Some (Atom (from_option AInt ANone (u_linked_id u))) ∧
    st' !! (u_role u +:+ "_name") = Some (Atom (AStr (display_name_of u))).
Proof.
  apply (login_builds_session campus "bob" "opensesame" bob_identity
           t0 t0 student_leftover).
  by vm_compute.
Defined.

Lemma login_submit_outcome_witness :
  login_submit (Database Unreachable [alice]) "alice" "opensesame" t0 t0 ∅ =
    (∅, Ok [UiError "Nom d'utilisateur ou mot de passe incorrect"]).
Proof.
  apply (login_submit_outcome (Database Unreachable [alice]) "alice"
           "opensesame" t0 t0 ∅); discriminate.
Defined.

Lemma expired_session_is_logged_out_witness :
  main parse_isoformat (t0 + 61 * minute) (t0 + 61 * minute) bob_session
    = (∅, Ok Restarted) ∧
  ∀ t_check' t_touch',
    main parse_isoformat t_check' t_touch' ∅ =
      ({[ "authenticated" := Atom (ABool false) ]}, Ok LoginInterface).
Proof.
  apply (expired_session_is_logged_out parse_isoformat (t0 + 61 * minute)
           (t0 + 61 * minute) bob_session).
  - reflexivity.
  - by vm_compute.
  - right. exists bob_identity. reflexivity.
Defined.

Lemma session_kept_alive_witness :
  ∃ st', main_runs parse_isoformat hourly_visits bob_session =
           (st', Ok (replicate (length hourly_visits) MainInterface)) ∧
         is_authenticated st' = true ∧
         st' !! "login_time" = bob_session !! "login_time".
Proof.
  apply (session_kept_alive parse_isoformat hourly_visits bob_session t0).
  - reflexivity.
  - reflexivity.
  - unfold hourly_visits. cbn [visited_in_time]. unfold minute. lia.
Defined.

Lemma professor_guard_after_login_witness :
  professor_guard ∅ = (∅, Ok PleaseLogIn).
Proof.
  apply (professor_guard_after_login alice t0 t0 ∅). reflexivity.
Defined.

Lemma login_then_main_witness :
  ∃ st1 events,
    login_submit campus "bob" "opensesame" t0 t0 ∅ = (st1, Ok events) ∧
    UiRerun ∈ events ∧
    main parse_isoformat (t0 + minute) (t0 + minute) st1 =
      (<["last_activity" := Moment (naive (t0 + minute))]> st1,
       Ok MainInterface).
Proof.
  apply (login_then_main parse_isoformat campus "bob" "opensesame" t0 t0 ∅
           (t0 + minute) (t0 + minute)).
  - discriminate.
  - by_computation.
  - unfold minute. lia.
Defined.
